(** * The users/posts API service (services/api/app.py)

    A shallow embedding of the Flask request handlers of
    [services/api/app.py] and of the part of the store they talk to.

    - Python objects (request payloads, result rows, response bodies) are
      values of [value]; a dict is a [gmap string value].
    - The handlers run in a small state-and-exception monad over [World]:
      the committed tables, the open connections with their pending
      transactions, the log of driver calls and the conditions of the
      store during the request.
    - Each SQL statement of the source is a constructor of [Query] and is
      given its meaning on the tables by [run_query]. *)

From Stdlib Require Import ZArith String List Bool Sorting.Sorted Permutation.
From stdpp Require Import gmap strings list fin_maps.

Set Warnings "-register-all".

Open Scope Z_scope.
Open Scope string_scope.

(** ** Python values *)

(** The objects the handlers handle: what [request.get_json()] returns,
    what the cursor returns and what is handed to [jsonify].  JSON numbers
    are integers here; a [created_at] column is a [VDatetime]. *)
Inductive value : Type :=
| VNone
| VBool (b : bool)
| VInt (n : Z)
| VStr (s : string)
| VDatetime (t : Z)
| VList (l : list value)
| VDict (m : gmap string value).

(** Exceptions, by the classes the handlers tell apart:
    [psycopg2.IntegrityError], any other [psycopg2.Error], and the
    interpreter's own errors ([TypeError], [KeyError], ...). *)
Inductive exn : Type :=
| IntegrityError (msg : string)
| DatabaseError (msg : string)
| PyError (msg : string).

(** [str(e)] *)
Definition str (e : exn) : string :=
  match e with
  | IntegrityError m | DatabaseError m | PyError m => m
  end.

(** [isinstance(e, psycopg2.IntegrityError)] *)
Definition is_integrity (e : exn) : bool :=
  match e with IntegrityError _ => true | _ => false end.

(** Truth value of an object, as [not data] and [if user:] test it. *)
Definition truthy (v : value) : bool :=
  match v with
  | VNone => false
  | VBool b => b
  | VInt n => negb (Z.eqb n 0)
  | VStr s => negb (String.eqb s "")
  | VDatetime _ => true
  | VList l => match l with [] => false | _ => true end
  | VDict m => negb (Nat.eqb (size m) 0)
  end.

(** [needle in hay] on strings: [needle] occurs in [hay]. *)
Fixpoint is_substring (needle hay : string) : bool :=
  String.prefix needle hay ||
  match hay with
  | EmptyString => false
  | String _ rest => is_substring needle rest
  end.

(** [k == x] for a string [k]: only an equal string compares equal. *)
Definition str_eq_value (k : string) (x : value) : bool :=
  match x with VStr s => String.eqb k s | _ => false end.

(** ** The store *)

(** Rows of the two tables. *)
Record UserRow : Type := mkUser {
  u_id : Z;
  u_username : string;
  u_email : string;
  u_created_at : Z
}.

Record PostRow : Type := mkPost {
  p_id : Z;
  p_user_id : Z;
  p_title : string;
  p_content : string;
  p_status : string;
  p_created_at : Z
}.

(** The tables, rows in the order they were inserted, the two identifier
    sequences, the store's clock, whether it enforces the foreign key
    from posts to users, and the store's own choice among result rows
    that an [ORDER BY] does not tell apart: [tie_first r1 r2] says that
    the store returns [r1] before [r2] when their sort keys are equal.
    Nothing is assumed of that choice. *)
Record Store : Type := mkStore {
  users : list UserRow;
  posts : list PostRow;
  next_user_id : Z;
  next_post_id : Z;
  now : Z;
  enforce_fk : bool;
  tie_first : gmap string value -> gmap string value -> bool
}.

(** One row of a result set, as [RealDictCursor] returns it: a mapping
    from column name to value. *)
Abbreviation Row := (gmap string value).

(** [SELECT id, username, email, created_at] and the [RETURNING] clause of
    the insert into users. *)
Definition user_row (u : UserRow) : Row :=
  {[ "id" := VInt (u_id u);
     "username" := VStr (u_username u);
     "email" := VStr (u_email u);
     "created_at" := VDatetime (u_created_at u) ]}.

(** [SELECT p.id, p.title, p.content, p.status, p.created_at, p.user_id,
    u.username]: a post with the username the join found, [NULL] when it
    found none. *)
Definition joined_row (pu : PostRow * option string) : Row :=
  let (p, uname) := pu in
  {[ "id" := VInt (p_id p);
     "title" := VStr (p_title p);
     "content" := VStr (p_content p);
     "status" := VStr (p_status p);
     "created_at" := VDatetime (p_created_at p);
     "user_id" := VInt (p_user_id p);
     "username" := match uname with Some n => VStr n | None => VNone end ]}.

(** [RETURNING id, user_id, title, content, status, created_at] *)
Definition returned_post_row (p : PostRow) : Row :=
  {[ "id" := VInt (p_id p);
     "user_id" := VInt (p_user_id p);
     "title" := VStr (p_title p);
     "content" := VStr (p_content p);
     "status" := VStr (p_status p);
     "created_at" := VDatetime (p_created_at p) ]}.

(** The SQL statements of the source, one constructor each, with the
    parameters the handler binds to [%s]. *)
Inductive Query : Type :=
| SelectUsers
| SelectUserById (user_id : Z)
| InsertUser (username email : value)
| SelectPosts
| SelectPostById (post_id : Z)
| InsertPost (user_id title content status : value)
| SelectPostsByUser (user_id : Z).

Definition is_select (q : Query) : bool :=
  match q with
  | InsertUser _ _ | InsertPost _ _ _ _ => false
  | _ => true
  end.

(** [ORDER BY]: every row is put before the first row that [le] lets it
    precede. [le a b] says that [a] comes before [b]: by the sort key
    when the keys differ, by the store's choice when they are equal. *)
Section OrderBy.
Context {A : Type} (le : A -> A -> bool).

Fixpoint insert_sorted (x : A) (l : list A) : list A :=
  match l with
  | [] => [x]
  | y :: l' => if le x y then x :: l else y :: insert_sorted x l'
  end.

Fixpoint order_by (l : list A) : list A :=
  match l with
  | [] => []
  | x :: l' => insert_sorted x (order_by l')
  end.
End OrderBy.

(** [ORDER BY id] on users; [ties] is the store's choice among rows of
    equal id. *)
Definition by_id_asc (ties : Row -> Row -> bool) (a b : UserRow) : bool :=
  if Z.eqb (u_id a) (u_id b)
  then ties (user_row a) (user_row b)
  else Z.ltb (u_id a) (u_id b).

(** [ORDER BY p.created_at DESC] on joined posts: the statement names no
    second key, so the order of posts created at the same time is the
    store's choice [ties]. *)
Definition by_created_desc (ties : Row -> Row -> bool)
    (a b : PostRow * option string) : bool :=
  if Z.eqb (p_created_at (fst a)) (p_created_at (fst b))
  then ties (joined_row a) (joined_row b)
  else Z.ltb (p_created_at (fst b)) (p_created_at (fst a)).

(** [FROM posts p LEFT JOIN users u ON p.user_id = u.id]: every post once
    for each user whose id is its [user_id], and once with no username
    when there is none. *)
Definition left_join (ps : list PostRow) (us : list UserRow)
  : list (PostRow * option string) :=
  flat_map (fun p =>
    match List.filter (fun u => Z.eqb (p_user_id p) (u_id u)) us with
    | [] => [(p, None)]
    | matches => List.map (fun u => (p, Some (u_username u))) matches
    end) ps.

(** Modelled from the spec: the schema, which is not part of the source
    file.  The columns are typed as in the data model of the spec (an
    integer [user_id], text for the rest), [username] and [email] are each
    unique across users, identifiers come from a sequence and
    [created_at] from the store's clock, and posts refer to users by a
    foreign key that the store may or may not enforce ([enforce_fk]).  A
    parameter that is not of its column's type is rejected by the store
    with an error that is not an integrity error. *)
Definition as_text (v : value) : option string :=
  match v with VStr s => Some s | _ => None end.

Definition as_integer (v : value) : option Z :=
  match v with VInt n => Some n | _ => None end.

Definition unique_violation (username email : string) (us : list UserRow) : bool :=
  existsb (fun u => String.eqb (u_username u) username
                    || String.eqb (u_email u) email) us.

Definition user_exists (uid : Z) (us : list UserRow) : bool :=
  existsb (fun u => Z.eqb uid (u_id u)) us.

Definition insert_user (username email : value) (s : Store)
  : exn + (list Row * Store) :=
  match as_text username, as_text email with
  | Some name, Some mail =>
      if unique_violation name mail (users s)
      then inl (IntegrityError "duplicate key value violates unique constraint")
      else
        let u := mkUser (next_user_id s) name mail (now s) in
        inr ([user_row u],
             mkStore (users s ++ [u]) (posts s)
                     (next_user_id s + 1) (next_post_id s)
                     (now s) (enforce_fk s) (tie_first s))
  | _, _ => inl (DatabaseError "invalid input for a text column")
  end.

Definition insert_post (user_id title content status : value) (s : Store)
  : exn + (list Row * Store) :=
  match as_integer user_id, as_text title, as_text content, as_text status with
  | Some uid, Some t, Some c, Some st =>
      if enforce_fk s && negb (user_exists uid (users s))
      then inl (IntegrityError "insert on table posts violates foreign key constraint")
      else
        let p := mkPost (next_post_id s) uid t c st (now s) in
        inr ([returned_post_row p],
             mkStore (users s) (posts s ++ [p])
                     (next_user_id s) (next_post_id s + 1)
                     (now s) (enforce_fk s) (tie_first s))
  | _, _, _, _ => inl (DatabaseError "invalid input for a column")
  end.

(** The meaning of each statement on the tables: the rows it returns and
    the tables after it. *)
Definition run_query (q : Query) (s : Store) : exn + (list Row * Store) :=
  match q with
  | SelectUsers =>
      inr (List.map user_row
             (order_by (by_id_asc (tie_first s)) (users s)), s)
  | SelectUserById uid =>
      inr (List.map user_row
             (List.filter (fun u => Z.eqb (u_id u) uid) (users s)), s)
  | InsertUser username email => insert_user username email s
  | SelectPosts =>
      inr (List.map joined_row
             (order_by (by_created_desc (tie_first s))
                (left_join (posts s) (users s))), s)
  | SelectPostById pid =>
      inr (List.map joined_row
             (left_join (List.filter (fun p => Z.eqb (p_id p) pid) (posts s))
                        (users s)), s)
  | InsertPost user_id title content status =>
      insert_post user_id title content status s
  | SelectPostsByUser uid =>
      inr (List.map joined_row
             (order_by (by_created_desc (tie_first s))
                (left_join
                   (List.filter (fun p => Z.eqb (p_user_id p) uid) (posts s))
                   (users s))), s)
  end.

(** ** The world a handler runs in *)

(** Calls on the driver, in the order they were made. *)
Inductive event : Type :=
| EvConnect (c : nat)
| EvConnectFailed
| EvExecute (c : nat) (q : Query)
| EvCommit (c : nat)
| EvClose (c : nat).

(** What is wrong with the store while the request runs, if anything: the
    exception that opening a connection, running the statement or
    committing raises for reasons outside the tables (the store is
    unreachable, the link drops). *)
Record Faults : Type := mkFaults {
  connect_fault : option exn;
  execute_fault : option exn;
  commit_fault : option exn
}.

Definition no_faults : Faults := mkFaults None None None.

(** [db] holds the committed tables. Every open connection has an entry in
    [conns]: the tables as its transaction sees them once it has run a
    statement. *)
Record World : Type := mkWorld {
  db : Store;
  conns : gmap nat (option Store);
  next_conn : nat;
  log : list event;
  faults : Faults
}.

Definition set_db (s : Store) (w : World) : World :=
  mkWorld s (conns w) (next_conn w) (log w) (faults w).

Definition set_conns (cs : gmap nat (option Store)) (w : World) : World :=
  mkWorld (db w) cs (next_conn w) (log w) (faults w).

Definition emit (ev : event) (w : World) : World :=
  mkWorld (db w) (conns w) (next_conn w) (log w ++ [ev]) (faults w).

(** ** The monad of handler bodies: state and exceptions *)

Inductive result (A : Type) : Type :=
| Ok (a : A)
| Raise (e : exn).
Arguments Ok {A} a.
Arguments Raise {A} e.

Definition M (A : Type) : Type := World -> result A * World.

Definition ret {A} (a : A) : M A := fun w => (Ok a, w).

Definition raise {A} (e : exn) : M A := fun w => (Raise e, w).

Definition bind {A B} (m : M A) (k : A -> M B) : M B :=
  fun w =>
    match m w with
    | (Ok a, w') => k a w'
    | (Raise e, w') => (Raise e, w')
    end.

(** [try: body / except ... as e: return handler(e)] at the top of a
    handler: nothing escapes. *)
Definition try_except {A} (body : M A) (handler : exn -> A) (w : World)
  : A * World :=
  match body w with
  | (Ok a, w') => (a, w')
  | (Raise e, w') => (handler e, w')
  end.

Declare Scope py_scope.
Delimit Scope py_scope with py.
Notation "x <- c ;; k" := (bind c (fun x => k))
  (at level 100, c at next level, right associativity) : py_scope.
Notation "c ;;; k" := (bind c (fun _ => k))
  (at level 100, right associativity) : py_scope.
Open Scope py_scope.

(** ** Operations on Python objects that can raise *)

(** [k in data] *)
Definition contains (k : string) (data : value) : M bool :=
  match data with
  | VDict m => ret (bool_decide (is_Some (m !! k)))
  | VList l => ret (existsb (str_eq_value k) l)
  | VStr s => ret (is_substring k s)
  | _ => raise (PyError "argument is not iterable")
  end.

(** [data[k]] *)
Definition getitem (data : value) (k : string) : M value :=
  match data with
  | VDict m =>
      match m !! k with
      | Some v => ret v
      | None => raise (PyError k)
      end
  | _ => raise (PyError "indices must be integers")
  end.

(** [data.get(k, default)] *)
Definition get (data : value) (k : string) (default : value) : M value :=
  match data with
  | VDict m => ret (match m !! k with Some v => v | None => default end)
  | _ => raise (PyError "object has no attribute get")
  end.

(** ** The driver *)

Record Cursor : Type := mkCursor {
  cur_conn : nat;
  cur_rows : list Row
}.

(** [get_db_connection()]: [psycopg2.connect] with the configured
    parameters and [RealDictCursor] as cursor factory. *)
Definition get_db_connection : M nat :=
  fun w =>
    match connect_fault (faults w) with
    | Some e => (Raise e, emit EvConnectFailed w)
    | None =>
        let c := next_conn w in
        (Ok c,
         emit (EvConnect c)
           (mkWorld (db w) (<[c := None]> (conns w)) (S c) (log w) (faults w)))
    end.

(** [conn.cursor()] *)
Definition cursor (c : nat) : M Cursor := ret (mkCursor c []).

(** [cur.execute(sql, params)]: the statement runs on the tables as the
    connection's transaction sees them; its effect stays with the
    transaction until [commit]. *)
Definition execute (cur : Cursor) (q : Query) : M Cursor :=
  fun w =>
    let c := cur_conn cur in
    let w1 := emit (EvExecute c q) w in
    match conns w !! c with
    | None => (Raise (DatabaseError "connection already closed"), w1)
    | Some pending =>
        match execute_fault (faults w) with
        | Some e => (Raise e, w1)
        | None =>
            match run_query q (default (db w) pending) with
            | inl e => (Raise e, w1)
            | inr (rows, s') =>
                (Ok (mkCursor c rows), set_conns (<[c := Some s']> (conns w)) w1)
            end
        end
    end.

(** [cur.fetchone()]: the first row, [None] when there is none. *)
Definition fetchone (cur : Cursor) : value :=
  match cur_rows cur with
  | [] => VNone
  | r :: _ => VDict r
  end.

(** [cur.fetchall()] *)
Definition fetchall (cur : Cursor) : value :=
  VList (List.map VDict (cur_rows cur)).

(** [conn.commit()]: the transaction's tables become the committed ones. *)
Definition commit (c : nat) : M unit :=
  fun w =>
    let w1 := emit (EvCommit c) w in
    match conns w !! c with
    | None => (Raise (DatabaseError "connection already closed"), w1)
    | Some pending =>
        match commit_fault (faults w) with
        | Some e => (Raise e, w1)
        | None =>
            (Ok tt,
             set_conns (<[c := None]> (conns w))
               (set_db (default (db w) pending) w1))
        end
    end.

(** [cur.close()] *)
Definition close_cursor (cur : Cursor) : M unit := ret tt.

(** [conn.close()]: the connection is gone, and with it whatever its
    transaction had not committed. *)
Definition close (c : nat) : M unit :=
  fun w => (Ok tt, set_conns (delete c (conns w)) (emit (EvClose c) w)).

(** ** Responses *)

Record Response : Type := mkResponse {
  body : value;
  status : Z
}.

(** [jsonify(obj), code] *)
Definition jsonify (obj : value) (code : Z) : Response := mkResponse obj code.

(** [{'error': msg}] *)
Definition error_body (msg : string) : value :=
  VDict {[ "error" := VStr msg ]}.

(** [except Exception as e: return jsonify({'error': str(e)}), 500] *)
Definition service_error (e : exn) : Response :=
  jsonify (error_body (str e)) 500.

(** ** The handlers *)

(** [GET /health] *)
Definition health : World -> Response * World :=
  try_except
    (conn <- get_db_connection ;;
     close conn ;;;
     ret (jsonify (VDict {[ "status" := VStr "healthy";
                            "database" := VStr "connected" ]}) 200))
    (fun e =>
       jsonify (VDict {[ "status" := VStr "unhealthy";
                         "error" := VStr (str e) ]}) 503).

(** [GET /users] *)
Definition list_users : World -> Response * World :=
  try_except
    (conn <- get_db_connection ;;
     cur <- cursor conn ;;
     cur <- execute cur SelectUsers ;;
     let users := fetchall cur in
     close_cursor cur ;;;
     close conn ;;;
     ret (jsonify users 200))
    service_error.

(** [GET /users/<int:user_id>] *)
Definition get_user (user_id : Z) : World -> Response * World :=
  try_except
    (conn <- get_db_connection ;;
     cur <- cursor conn ;;
     cur <- execute cur (SelectUserById user_id) ;;
     let user := fetchone cur in
     close_cursor cur ;;;
     close conn ;;;
     if truthy user
     then ret (jsonify user 200)
     else ret (jsonify (error_body "User not found") 404))
    service_error.

(** [not data or k1 not in data or k2 not in data] *)
Definition missing_required (data : value) (k1 k2 : string) : M bool :=
  if negb (truthy data) then ret true
  else
    has1 <- contains k1 data ;;
    if negb has1 then ret true
    else
      has2 <- contains k2 data ;;
      ret (negb has2).

(** [POST /users], [data] being [request.get_json()] *)
Definition create_user (data : value) : World -> Response * World :=
  try_except
    (bad <- missing_required data "username" "email" ;;
     if bad
     then ret (jsonify (error_body "username and email are required") 400)
     else
       conn <- get_db_connection ;;
       cur <- cursor conn ;;
       username <- getitem data "username" ;;
       email <- getitem data "email" ;;
       cur <- execute cur (InsertUser username email) ;;
       let user := fetchone cur in
       commit conn ;;;
       close_cursor cur ;;;
       close conn ;;;
       ret (jsonify user 201))
    (fun e =>
       if is_integrity e
       then jsonify (error_body "Username or email already exists") 409
       else service_error e).

(** [GET /posts] *)
Definition list_posts : World -> Response * World :=
  try_except
    (conn <- get_db_connection ;;
     cur <- cursor conn ;;
     cur <- execute cur SelectPosts ;;
     let posts := fetchall cur in
     close_cursor cur ;;;
     close conn ;;;
     ret (jsonify posts 200))
    service_error.

(** [GET /posts/<int:post_id>] *)
Definition get_post (post_id : Z) : World -> Response * World :=
  try_except
    (conn <- get_db_connection ;;
     cur <- cursor conn ;;
     cur <- execute cur (SelectPostById post_id) ;;
     let post := fetchone cur in
     close_cursor cur ;;;
     close conn ;;;
     if truthy post
     then ret (jsonify post 200)
     else ret (jsonify (error_body "Post not found") 404))
    service_error.

(** [POST /posts], [data] being [request.get_json()] *)
Definition create_post (data : value) : World -> Response * World :=
  try_except
    (bad <- missing_required data "user_id" "title" ;;
     if bad
     then ret (jsonify (error_body "user_id and title are required") 400)
     else
       conn <- get_db_connection ;;
       cur <- cursor conn ;;
       user_id <- getitem data "user_id" ;;
       title <- getitem data "title" ;;
       content <- get data "content" (VStr "") ;;
       status <- get data "status" (VStr "draft") ;;
       cur <- execute cur (InsertPost user_id title content status) ;;
       let post := fetchone cur in
       commit conn ;;;
       close_cursor cur ;;;
       close conn ;;;
       ret (jsonify post 201))
    service_error.

(** [GET /users/<int:user_id>/posts] *)
Definition get_user_posts (user_id : Z) : World -> Response * World :=
  try_except
    (conn <- get_db_connection ;;
     cur <- cursor conn ;;
     cur <- execute cur (SelectPostsByUser user_id) ;;
     let posts := fetchall cur in
     close_cursor cur ;;;
     close conn ;;;
     ret (jsonify posts 200))
    service_error.

(** ** Vocabulary of the properties *)

(** The world right after connection [next_conn w] was opened. *)
Definition connected (w : World) : World :=
  emit (EvConnect (next_conn w))
    (mkWorld (db w) (<[next_conn w := None]> (conns w)) (S (next_conn w))
             (log w) (faults w)).

(** Whether the statement [q] fails with [e] on a fresh connection of
    [w]: the store is at fault, or the tables reject the statement. *)
Definition rejects (w : World) (q : Query) (e : exn) : Prop :=
  execute_fault (faults w) = Some e \/
  (execute_fault (faults w) = None /\ run_query q (db w) = inl e).


(** The world after statement [q] ran on the fresh connection and left its
    transaction with the tables [s']. *)
Definition queried (w : World) (q : Query) (s' : Store) : World :=
  set_conns (<[next_conn w := Some s']> (conns (connected w)))
    (emit (EvExecute (next_conn w) q) (connected w)).

(** The world after connection [c] was closed. *)
Definition released (c : nat) (w : World) : World :=
  set_conns (delete c (conns w)) (emit (EvClose c) w).

(** The rows a [SELECT] returns. *)
Definition select_rows (q : Query) (s : Store) : list Row :=
  match run_query q s with
  | inr (rows, _) => rows
  | inl _ => []
  end.

(** The common shape of the five reading handlers: connect, run one
    statement, fetch, close the cursor and the connection, respond. *)
Definition reading (q : Query) (respond : Cursor -> Response)
  : World -> Response * World :=
  try_except
    (conn <- get_db_connection ;;
     cur <- cursor conn ;;
     cur <- execute cur q ;;
     close_cursor cur ;;;
     close conn ;;;
     ret (respond cur))
    service_error.

(** A driver call that leaves the committed tables alone. *)
Definition reads_only (ev : event) : Prop :=
  match ev with
  | EvCommit _ => False
  | EvExecute _ q => is_select q = true
  | _ => True
  end.

(** A handler that never changes the committed tables and, in doing so,
    runs nothing but [SELECT]s and never commits. *)
Definition read_only (h : World -> Response * World) : Prop :=
  forall w,
    db (snd (h w)) = db w /\
    exists calls, log (snd (h w)) = (log w ++ calls)%list /\ Forall reads_only calls.

(** [return a if truthy(row) else b], after the connection is closed. *)
Definition found_or (missing : string) (cur : Cursor) : Response :=
  if truthy (fetchone cur)
  then jsonify (fetchone cur) 200
  else jsonify (error_body missing) 404.

(** What the left join pairs a post with: the username of a user whose
    id is the post's [user_id], or nothing when no user has that id. *)
Definition owner_name (p : PostRow) (us : list UserRow) (uname : option string)
  : Prop :=
  match uname with
  | Some n => exists u, In u us /\ u_id u = p_user_id p /\ u_username u = n
  | None => forall u, In u us -> u_id u <> p_user_id p
  end.

(** The creation time of a joined row. *)
Definition created (r : PostRow * option string) : Z := p_created_at (fst r).



(** The body of a listing response: [jsonify] of the fetched rows. *)
Definition posts_body (rows : list (PostRow * option string)) : value :=
  VList (List.map VDict (List.map joined_row rows)).

(** The world after the transaction of the fresh connection, which had
    run [q] and stood at [s'], was committed. *)
Definition committed (w : World) (q : Query) (s' : Store) : World :=
  set_conns (<[next_conn w := None]> (conns (queried w q s')))
    (set_db s' (emit (EvCommit (next_conn w)) (queried w q s'))).

(** The common shape of the two creating handlers once the payload is
    validated and its fields are read: connect, run the insert, fetch the
    returned row, commit, close the cursor and the connection, respond
    201; [handler] is the handler's chain of [except] clauses. *)
Definition writing (q : Query) (handler : exn -> Response)
  : World -> Response * World :=
  try_except
    (conn <- get_db_connection ;;
     cur <- cursor conn ;;
     cur <- execute cur q ;;
     let row := fetchone cur in
     commit conn ;;;
     close_cursor cur ;;;
     close conn ;;;
     ret (jsonify row 201))
    handler.

(** The [except] clauses of [create_user]. *)
Definition conflict_or_service_error (e : exn) : Response :=
  if is_integrity e
  then jsonify (error_body "Username or email already exists") 409
  else service_error e.

(** [k not in m] for a dict [m] *)
Definition lacks (m : gmap string value) (k : string) : bool :=
  negb (bool_decide (is_Some (m !! k))).

(** [m.get(k, d)] for a dict [m] *)
Definition field_or (m : gmap string value) (k : string) (d : value) : value :=
  match m !! k with Some v => v | None => d end.

(** The insert that [create_post] runs for the dict [m]. *)
Definition post_insert (m : gmap string value) (user_id title : value) : Query :=
  InsertPost user_id title
    (field_or m "content" (VStr "")) (field_or m "status" (VStr "draft")).

(** A driver call that is not a [SELECT]. *)
Definition no_select (ev : event) : Prop :=
  match ev with
  | EvExecute _ q => is_select q = false
  | _ => True
  end.

(** ** Sample data *)

Definition alice : UserRow := mkUser 1 "alice" "alice@example.com" 100.
Definition bob : UserRow := mkUser 2 "bob" "bob@example.com" 110.

(** Two posts created at the same time and one, newer, whose owner does
    not exist. *)
Definition post1 : PostRow := mkPost 1 1 "first" "hello" "published" 200.
Definition post2 : PostRow := mkPost 2 2 "second" "" "draft" 200.
Definition post3 : PostRow := mkPost 3 7 "orphan" "" "draft" 300.

Definition sample_store : Store :=
  mkStore [alice; bob] [post1; post2; post3] 3 4 400 true (fun _ _ => true).

(** The same tables in a store that makes the other choice among rows of
    equal sort key. *)
Definition other_choice_store : Store :=
  mkStore [alice; bob] [post1; post2; post3] 3 4 400 true (fun _ _ => false).

Definition world_of (s : Store) (f : Faults) : World := mkWorld s ∅ 0%nat [] f.

Definition sample_world : World := world_of sample_store no_faults.

Definition other_choice_world : World := world_of other_choice_store no_faults.

(** The store cannot be reached. *)
Definition unreachable_world : World :=
  world_of sample_store
    (mkFaults (Some (DatabaseError "could not connect to server")) None None).

(** The store drops the link while the statement runs. *)
Definition dropping_world : World :=
  world_of sample_store
    (mkFaults None (Some (DatabaseError "server closed the connection unexpectedly"))
              None).

(** A create-user payload whose username is taken. *)
Definition alice_again : gmap string value :=
  {[ "username" := VStr "alice"; "email" := VStr "alice2@example.com" ]}.

(** A create-user payload whose two fields are empty strings. *)
Definition empty_fields : gmap string value :=
  {[ "username" := VStr ""; "email" := VStr "" ]}.

(** A create-user payload without [email]. *)
Definition no_email : gmap string value := {[ "username" := VStr "carol" ]}.

(** A create-post payload with the required fields only. *)
Definition bare_post : gmap string value :=
  {[ "user_id" := VInt 1; "title" := VStr "hello" ]}.

(** A create-post payload for a user who does not exist. *)
Definition orphan_post : gmap string value :=
  {[ "user_id" := VInt 9; "title" := VStr "nobody" ]}.

(** ** The rest of the module *)

(** [GET /]: the static description of the service. *)
Definition root : World -> Response * World :=
  fun w =>
    (jsonify
       (VDict
          {[ "service" := VStr "API Service";
             "version" := VStr "1.0.0";
             "endpoints" :=
               VDict
                 {[ "health" := VStr "/health";
                    "users" :=
                      VDict {[ "list" := VStr "GET /users";
                               "get" := VStr "GET /users/<id>";
                               "create" := VStr "POST /users" ]};
                    "posts" :=
                      VDict {[ "list" := VStr "GET /posts";
                               "get" := VStr "GET /posts/<id>";
                               "create" := VStr "POST /posts";
                               "by_user" := VStr "GET /users/<id>/posts" ]} ]} ]})
       200,
     w).

(** ** Vocabulary of the further properties *)

(** The body of a users listing. *)
Definition users_body (rows : list UserRow) : value :=
  VList (List.map VDict (List.map user_row rows)).

(** The tables are well formed: identifiers are distinct and behind their
    sequence, usernames and emails are distinct, and, where the store
    enforces the foreign key, every post has an owner. *)
Record store_ok (s : Store) : Prop := mk_store_ok {
  user_ids_distinct : NoDup (List.map u_id (users s));
  user_ids_issued : forall u, In u (users s) -> u_id u < next_user_id s;
  usernames_distinct : NoDup (List.map u_username (users s));
  emails_distinct : NoDup (List.map u_email (users s));
  post_ids_distinct : NoDup (List.map p_id (posts s));
  post_ids_issued : forall p, In p (posts s) -> p_id p < next_post_id s;
  owners_exist :
    enforce_fk s = true ->
    forall p, In p (posts s) -> user_exists (p_user_id p) (users s) = true
}.

(** Two worlds with the same committed tables and the same condition of
    the store; their open connections and logs may differ. *)
Definition same_store (w1 w2 : World) : Prop :=
  db w1 = db w2 /\ faults w1 = faults w2.

(** A driver call that closes a connection. *)
Definition is_close (ev : event) : bool :=
  match ev with EvClose _ => true | _ => false end.

(** The sample store without the post whose owner is missing. *)
Definition consistent_store : Store :=
  mkStore [alice; bob] [post1; post2] 3 3 400 true (fun _ _ => true).

Definition consistent_world : World := world_of consistent_store no_faults.

(** The handler [h], run in [w], returns with the connection it opened
    still open and nothing pending on it, and has closed no connection. *)
Definition leaves_open (h : World -> Response * World) (w : World) : Prop :=
  conns (snd (h w)) !! next_conn w = Some None
  /\ exists calls,
       log (snd (h w)) = (log w ++ calls)%list
       /\ forallb (fun ev => negb (is_close ev)) calls = true.

(** The store fails at commit. *)
Definition commit_failing_world : World :=
  world_of sample_store
    (mkFaults None None (Some (DatabaseError "could not commit"))).

(** A driver call that runs a statement. *)
Definition is_execute (ev : event) : bool :=
  match ev with EvExecute _ _ => true | _ => false end.

(** A payload that is a list naming both required fields of a user. *)
Definition names_only : value := VList [VStr "username"; VStr "email"].
(** * Properties *)

(** ** Running the driver operations *)

Lemma get_db_connection_ok w :
  connect_fault (faults w) = None ->
  get_db_connection w = (Ok (next_conn w), connected w).
Proof. intros H. unfold get_db_connection. now rewrite H. Qed.

Lemma get_db_connection_fails w e :
  connect_fault (faults w) = Some e ->
  get_db_connection w = (Raise e, emit EvConnectFailed w).
Proof. intros H. unfold get_db_connection. now rewrite H. Qed.

Lemma connected_lookup w : conns (connected w) !! next_conn w = Some None.
Proof. unfold connected; simpl. apply lookup_insert_eq. Qed.

Lemma execute_rejected w q e :
  rejects w q e ->
  execute (mkCursor (next_conn w) []) q (connected w)
  = (Raise e, emit (EvExecute (next_conn w) q) (connected w)).
Proof.
  intros Hrej. unfold execute. cbn [cur_conn].
  rewrite connected_lookup.
  change (faults (connected w)) with (faults w).
  change (db (connected w)) with (db w). cbn [default from_option id].
  destruct Hrej as [-> | [-> ->]]; reflexivity.
Qed.

Lemma execute_accepted w q rows s' :
  execute_fault (faults w) = None ->
  run_query q (db w) = inr (rows, s') ->
  execute (mkCursor (next_conn w) []) q (connected w)
  = (Ok (mkCursor (next_conn w) rows),
     set_conns (<[next_conn w := Some s']> (conns (connected w)))
       (emit (EvExecute (next_conn w) q) (connected w))).
Proof.
  intros Hf Hq. unfold execute. cbn [cur_conn].
  rewrite connected_lookup.
  change (faults (connected w)) with (faults w).
  change (db (connected w)) with (db w). cbn [default from_option id].
  now rewrite Hf, Hq.
Qed.

Lemma truthy_row (r : Row) k v : r !! k = Some v -> truthy (VDict r) = true.
Proof.
  intros Hk. cbn [truthy].
  destruct (Nat.eqb_spec (size r) 0) as [Hz | Hnz]; [ | reflexivity].
  apply map_size_empty_iff in Hz. subst r. now rewrite lookup_empty in Hk.
Qed.

(** ** Health check *)

(** C8: the health check opens a connection, closes it at once and runs
    no statement. When the connection opens, the answer is 200 with
    [{status: healthy, database: connected}]; when opening fails with
    [e], the answer is 503 with [{status: unhealthy, error: str(e)}]. *)
Theorem health_reports_connectivity (w : World) :
  (connect_fault (faults w) = None ->
     let c := next_conn w in
     fst (health w)
     = jsonify (VDict {[ "status" := VStr "healthy";
                         "database" := VStr "connected" ]}) 200
     /\ log (snd (health w)) = (log w ++ [EvConnect c; EvClose c])%list
     /\ conns (snd (health w)) !! c = None
     /\ db (snd (health w)) = db w)
  /\ (forall e, connect_fault (faults w) = Some e ->
     fst (health w)
     = jsonify (VDict {[ "status" := VStr "unhealthy";
                         "error" := VStr (str e) ]}) 503
     /\ log (snd (health w)) = (log w ++ [EvConnectFailed])%list
     /\ conns (snd (health w)) = conns w
     /\ db (snd (health w)) = db w).
Proof.
  split.
  - intros Hc c. unfold health, try_except, bind.
    rewrite (get_db_connection_ok w Hc). cbn.
    repeat split.
    + now rewrite <- app_assoc.
    + apply lookup_delete_eq.
  - intros e He. unfold health, try_except, bind.
    rewrite (get_db_connection_fails w e He). cbn. auto.
Qed.

(** ** The reading handlers *)

Lemma run_select q s :
  is_select q = true -> run_query q s = inr (select_rows q s, s).
Proof. destruct q; cbn; intros H; try discriminate; reflexivity. Qed.

Lemma reading_runs q respond w :
  is_select q = true ->
  reading q respond w =
  match connect_fault (faults w) with
  | Some e => (service_error e, emit EvConnectFailed w)
  | None =>
      match execute_fault (faults w) with
      | Some e => (service_error e, emit (EvExecute (next_conn w) q) (connected w))
      | None =>
          (respond (mkCursor (next_conn w) (select_rows q (db w))),
           released (next_conn w) (queried w q (db w)))
      end
  end.
Proof.
  intros Hsel. unfold reading, try_except, bind at 1.
  destruct (connect_fault (faults w)) as [e | ] eqn:Hc.
  - now rewrite (get_db_connection_fails w e Hc).
  - rewrite (get_db_connection_ok w Hc). unfold bind at 1, cursor, ret at 1.
    unfold bind at 1.
    destruct (execute_fault (faults w)) as [e | ] eqn:He.
    + rewrite (execute_rejected w q e) by (left; exact He). reflexivity.
    + rewrite (execute_accepted w q _ _ He (run_select q (db w) Hsel)).
      reflexivity.
Qed.

Lemma list_users_reading w :
  list_users w = reading SelectUsers (fun cur => jsonify (fetchall cur) 200) w.
Proof. reflexivity. Qed.

Lemma list_posts_reading w :
  list_posts w = reading SelectPosts (fun cur => jsonify (fetchall cur) 200) w.
Proof. reflexivity. Qed.

Lemma get_user_posts_reading uid w :
  get_user_posts uid w
  = reading (SelectPostsByUser uid) (fun cur => jsonify (fetchall cur) 200) w.
Proof. reflexivity. Qed.

Lemma bind_if_ret {A B} (m : M A) (t : A -> bool) (x y : A -> B) w :
  bind m (fun a => if t a then ret (x a) else ret (y a)) w
  = bind m (fun a => ret (if t a then x a else y a)) w.
Proof.
  unfold bind. destruct (m w) as [[a | e] w']; [ | reflexivity].
  now destruct (t a).
Qed.

Lemma get_user_reading uid w :
  get_user uid w = reading (SelectUserById uid) (found_or "User not found") w.
Proof.
  unfold get_user, reading, found_or, try_except, bind, cursor, ret.
  destruct (get_db_connection w) as [[c | e] w1]; [ | reflexivity].
  destruct (execute _ _ w1) as [[cur | e] w2]; [ | reflexivity].
  cbn. now destruct (truthy (fetchone cur)).
Qed.

Lemma get_post_reading pid w :
  get_post pid w = reading (SelectPostById pid) (found_or "Post not found") w.
Proof.
  unfold get_post, reading, found_or, try_except, bind, cursor, ret.
  destruct (get_db_connection w) as [[c | e] w1]; [ | reflexivity].
  destruct (execute _ _ w1) as [[cur | e] w2]; [ | reflexivity].
  cbn. now destruct (truthy (fetchone cur)).
Qed.

Lemma reading_read_only q respond :
  is_select q = true -> read_only (reading q respond).
Proof.
  intros Hsel w. rewrite (reading_runs q respond w Hsel).
  destruct (connect_fault (faults w)) as [e | ].
  - split; [reflexivity | ]. exists [EvConnectFailed]. split; [reflexivity | ].
    repeat constructor.
  - destruct (execute_fault (faults w)) as [e | ].
    + split; [reflexivity | ].
      exists [EvConnect (next_conn w); EvExecute (next_conn w) q].
      split; [cbn; now rewrite <- app_assoc | ].
      repeat constructor. exact Hsel.
    + split; [reflexivity | ].
      exists [EvConnect (next_conn w); EvExecute (next_conn w) q;
              EvClose (next_conn w)].
      split; [cbn; now rewrite <- !app_assoc | ].
      repeat constructor. exact Hsel.
Qed.

Lemma read_only_ext (h h' : World -> Response * World) :
  (forall w, h w = h' w) -> read_only h' -> read_only h.
Proof. intros Heq Hro w. rewrite Heq. apply Hro. Qed.

(** C10: each of the five GET handlers (list-users, get-user, list-posts,
    get-post, get-posts-by-user) leaves the committed tables as they
    were, whatever the world it runs in: the only statements it runs are
    SELECTs and it never commits. *)
Theorem get_handlers_read_only :
  read_only list_users
  /\ (forall user_id, read_only (get_user user_id))
  /\ read_only list_posts
  /\ (forall post_id, read_only (get_post post_id))
  /\ (forall user_id, read_only (get_user_posts user_id)).
Proof.
  split; [ | split; [ | split; [ | split]]]; intros.
  - eapply read_only_ext; [apply list_users_reading | now apply reading_read_only].
  - eapply read_only_ext; [apply get_user_reading | now apply reading_read_only].
  - eapply read_only_ext; [apply list_posts_reading | now apply reading_read_only].
  - eapply read_only_ext; [apply get_post_reading | now apply reading_read_only].
  - eapply read_only_ext; [apply get_user_posts_reading | now apply reading_read_only].
Qed.

(** ** Lookups by identifier *)

Lemma filter_nil_iff {A} (f : A -> bool) (l : list A) :
  List.filter f l = [] <-> forall x, In x l -> f x = false.
Proof.
  induction l as [ | a l IH]; cbn.
  - split; [intros _ x [] | reflexivity].
  - destruct (f a) eqn:Ha.
    + split; [discriminate | ]. intros H. specialize (H a (or_introl eq_refl)).
      congruence.
    + rewrite IH. split.
      * intros H x [<- | Hx]; auto.
      * intros H x Hx. apply H. now right.
Qed.

Lemma left_join_sound ps us p uname :
  In (p, uname) (left_join ps us) -> In p ps /\ owner_name p us uname.
Proof.
  unfold left_join. rewrite in_flat_map. intros [p' [Hp' Hin]].
  destruct (List.filter _ us) as [ | u0 matches] eqn:Hf.
  - destruct Hin as [Heq | []]. inversion Heq; subst. split; [exact Hp' | ].
    cbn. intros u Hu Hid.
    pose proof (proj1 (filter_nil_iff _ _) Hf u Hu) as Hne. cbn in Hne.
    apply Z.eqb_neq in Hne. congruence.
  - apply in_map_iff in Hin. destruct Hin as [u [Heq Hu]].
    inversion Heq; subst. split; [exact Hp' | ].
    rewrite <- Hf in Hu. apply filter_In in Hu. destruct Hu as [Hu Hid].
    apply Z.eqb_eq in Hid. cbn. exists u. auto.
Qed.

Lemma left_join_nil ps us : left_join ps us = [] -> ps = [].
Proof.
  destruct ps as [ | p ps]; [reflexivity | ]. unfold left_join. cbn.
  destruct (List.filter _ us); cbn; discriminate.
Qed.

Lemma get_user_runs id w :
  connect_fault (faults w) = None -> execute_fault (faults w) = None ->
  fst (get_user id w)
  = found_or "User not found"
      (mkCursor (next_conn w)
         (List.map user_row
            (List.filter (fun u => Z.eqb (u_id u) id) (users (db w))))).
Proof.
  intros Hc He. rewrite get_user_reading, reading_runs by reflexivity.
  now rewrite Hc, He.
Qed.

Lemma get_post_runs id w :
  connect_fault (faults w) = None -> execute_fault (faults w) = None ->
  fst (get_post id w)
  = found_or "Post not found"
      (mkCursor (next_conn w)
         (List.map joined_row
            (left_join (List.filter (fun p => Z.eqb (p_id p) id) (posts (db w)))
                       (users (db w))))).
Proof.
  intros Hc He. rewrite get_post_reading, reading_runs by reflexivity.
  now rewrite Hc, He.
Qed.

Lemma found_or_hit missing c (r : Row) rows :
  is_Some (r !! "id") ->
  found_or missing (mkCursor c (r :: rows)) = jsonify (VDict r) 200.
Proof.
  intros [v Hv]. unfold found_or. cbn [fetchone cur_rows].
  now rewrite (truthy_row r "id" v Hv).
Qed.

Lemma found_or_miss missing c :
  found_or missing (mkCursor c []) = jsonify (error_body missing) 404.
Proof. reflexivity. Qed.

Lemma user_row_id u : is_Some (user_row u !! "id").
Proof. eexists. unfold user_row. now simplify_map_eq. Qed.

Lemma joined_row_id pu : is_Some (joined_row pu !! "id").
Proof. destruct pu as [p un]. eexists. unfold joined_row. now simplify_map_eq. Qed.

(** C5: with the store answering, get-user and get-post return 200 with
    the record of a row that has the identifier when there is one, and
    404 with the fixed message [User not found], respectively
    [Post not found], when there is none. *)
Theorem lookup_by_identifier (id : Z) (w : World) :
  connect_fault (faults w) = None ->
  execute_fault (faults w) = None ->
  ((exists u, In u (users (db w)) /\ u_id u = id) ->
     exists u, In u (users (db w)) /\ u_id u = id /\
       fst (get_user id w) = jsonify (VDict (user_row u)) 200)
  /\ ((forall u, In u (users (db w)) -> u_id u <> id) ->
     fst (get_user id w) = jsonify (error_body "User not found") 404)
  /\ ((exists p, In p (posts (db w)) /\ p_id p = id) ->
     exists p uname, In p (posts (db w)) /\ p_id p = id /\
       owner_name p (users (db w)) uname /\
       fst (get_post id w) = jsonify (VDict (joined_row (p, uname))) 200)
  /\ ((forall p, In p (posts (db w)) -> p_id p <> id) ->
     fst (get_post id w) = jsonify (error_body "Post not found") 404).
Proof.
  intros Hc He. rewrite (get_user_runs id w Hc He), (get_post_runs id w Hc He).
  split; [ | split; [ | split]].
  - intros [u [Hu Hid]].
    destruct (List.filter _ (users (db w))) as [ | u0 rest] eqn:Hf.
    + pose proof (proj1 (filter_nil_iff _ _) Hf u Hu) as Hne. cbn in Hne.
      apply Z.eqb_neq in Hne. contradiction.
    + assert (Hin : In u0 (List.filter (fun u => Z.eqb (u_id u) id) (users (db w))))
        by (rewrite Hf; now left).
      apply filter_In in Hin. destruct Hin as [Hin Heq]. apply Z.eqb_eq in Heq.
      exists u0. split; [exact Hin | split; [exact Heq | ]]. cbn [List.map].
      apply found_or_hit, user_row_id.
  - intros Hnone.
    assert (Hf : List.filter (fun u => Z.eqb (u_id u) id) (users (db w)) = []).
    { apply filter_nil_iff. intros u Hu. apply Z.eqb_neq. now apply Hnone. }
    rewrite Hf. apply found_or_miss.
  - intros [p [Hp Hid]].
    destruct (left_join _ (users (db w))) as [ | [p0 un] rest] eqn:Hj.
    + apply left_join_nil in Hj.
      pose proof (proj1 (filter_nil_iff _ _) Hj p Hp) as Hne. cbn in Hne.
      apply Z.eqb_neq in Hne. contradiction.
    + assert (Hin : In (p0, un)
                (left_join (List.filter (fun p => Z.eqb (p_id p) id) (posts (db w)))
                           (users (db w)))) by (rewrite Hj; now left).
      apply left_join_sound in Hin. destruct Hin as [Hin Hown].
      apply filter_In in Hin. destruct Hin as [Hin Heq]. apply Z.eqb_eq in Heq.
      exists p0, un.
      split; [exact Hin | split; [exact Heq | split; [exact Hown | ]]].
      cbn [List.map]. apply found_or_hit, joined_row_id.
  - intros Hnone.
    assert (Hf : List.filter (fun p => Z.eqb (p_id p) id) (posts (db w)) = []).
    { apply filter_nil_iff. intros p Hp. apply Z.eqb_neq. now apply Hnone. }
    rewrite Hf. apply found_or_miss.
Qed.

(** ** Ordering *)

Section OrderByFacts.
Context {A : Type} (le : A -> A -> bool).

Lemma insert_sorted_perm x l : Permutation (insert_sorted le x l) (x :: l).
Proof.
  induction l as [ | y l IH]; cbn; [reflexivity | ].
  destruct (le x y); [reflexivity | ].
  rewrite IH. apply perm_swap.
Qed.

Lemma order_by_perm l : Permutation (order_by le l) l.
Proof.
  induction l as [ | x l IH]; cbn; [reflexivity | ].
  rewrite insert_sorted_perm. now rewrite IH.
Qed.

(** [R]: the order of the sort keys, equal keys included. Whatever [le]
    says of rows with equal keys, the result is ordered by the keys. *)
Context (R : A -> A -> Prop).
Hypothesis R_trans : forall a b c, R a b -> R b c -> R a c.
Hypothesis le_before : forall a b, le a b = true -> R a b.
Hypothesis le_after : forall a b, le a b = false -> R b a.

Lemma insert_sorted_sorted x l :
  StronglySorted R l -> StronglySorted R (insert_sorted le x l).
Proof.
  induction 1 as [ | y l Hs IH Hy]; cbn.
  - repeat constructor.
  - destruct (le x y) eqn:Hxy.
    + constructor; [now constructor | ].
      constructor; [now apply le_before | ].
      rewrite List.Forall_forall in Hy |- *. intros z Hz.
      eapply R_trans; [apply le_before; exact Hxy | now apply Hy].
    + constructor; [exact IH | ].
      rewrite List.Forall_forall in Hy |- *. intros z Hz.
      apply (Permutation_in _ (insert_sorted_perm x l)) in Hz.
      destruct Hz as [<- | Hz]; [now apply le_after | now apply Hy].
Qed.

Lemma order_by_sorted l : StronglySorted R (order_by le l).
Proof.
  induction l as [ | x l IH]; cbn; [constructor | ].
  now apply insert_sorted_sorted.
Qed.
End OrderByFacts.

Lemma strongly_sorted_lookup {A} (R : A -> A -> Prop) (l : list A) :
  StronglySorted R l ->
  forall (i j : nat) a b, (i < j)%nat -> l !! i = Some a -> l !! j = Some b -> R a b.
Proof.
  induction 1 as [ | x l Hs IH Hx]; intros i j a b Hij Hi Hj.
  - now rewrite lookup_nil in Hi.
  - destruct j as [ | j]; [lia | ]. cbn in Hj.
    destruct i as [ | i]; cbn in Hi.
    + inversion Hi; subst. rewrite List.Forall_forall in Hx. apply Hx.
      apply list_elem_of_In. eapply list_elem_of_lookup_2. exact Hj.
    + apply (IH i j); [lia | exact Hi | exact Hj].
Qed.



Lemma left_join_complete ps us p :
  In p ps -> exists uname, In (p, uname) (left_join ps us).
Proof.
  intros Hp. unfold left_join.
  destruct (List.filter (fun u => Z.eqb (p_user_id p) (u_id u)) us)
    as [ | u0 matches] eqn:Hf.
  - exists None. apply in_flat_map. exists p. split; [exact Hp | ].
    rewrite Hf. now left.
  - exists (Some (u_username u0)). apply in_flat_map. exists p.
    split; [exact Hp | ]. rewrite Hf. now left.
Qed.


Lemma get_user_posts_runs uid w :
  connect_fault (faults w) = None -> execute_fault (faults w) = None ->
  get_user_posts uid w
  = (jsonify (posts_body
                (order_by (by_created_desc (tie_first (db w)))
                   (left_join
                      (List.filter (fun p => Z.eqb (p_user_id p) uid) (posts (db w)))
                      (users (db w))))) 200,
     released (next_conn w) (queried w (SelectPostsByUser uid) (db w))).
Proof.
  intros Hc He. rewrite get_user_posts_reading, reading_runs by reflexivity.
  now rewrite Hc, He.
Qed.


(** C7: get-posts-by-user never answers 404. With the store answering it
    answers 200 with the posts whose [user_id] is the one asked for, the
    empty list when there are none; the one statement it runs is the
    select on posts, so whether such a user exists plays no part. *)
Theorem get_user_posts_empty_is_success (user_id : Z) (w : World) :
  status (fst (get_user_posts user_id w)) <> 404
  /\ (connect_fault (faults w) = None ->
      execute_fault (faults w) = None ->
      exists mine,
        fst (get_user_posts user_id w) = jsonify (posts_body mine) 200
        /\ (forall p, (In p (posts (db w)) /\ p_user_id p = user_id)
                      <-> exists uname, In (p, uname) mine)
        /\ ((forall p, In p (posts (db w)) -> p_user_id p <> user_id) ->
            posts_body mine = VList [])
        /\ log (snd (get_user_posts user_id w))
           = (log w ++ [EvConnect (next_conn w);
                        EvExecute (next_conn w) (SelectPostsByUser user_id);
                        EvClose (next_conn w)])%list).
Proof.
  split.
  - rewrite get_user_posts_reading, reading_runs by reflexivity.
    destruct (connect_fault (faults w)); [cbn; lia | ].
    destruct (execute_fault (faults w)); cbn; lia.
  - intros Hc He. rewrite (get_user_posts_runs user_id w Hc He).
    eexists. split; [reflexivity | ]. split; [ | split].
    + intros p. split.
      * intros [Hp Hid].
        destruct (left_join_complete
                    (List.filter (fun p => Z.eqb (p_user_id p) user_id) (posts (db w)))
                    (users (db w)) p) as [uname Hin].
        { apply filter_In. split; [exact Hp | now apply Z.eqb_eq]. }
        exists uname.
        apply (Permutation_in _ (Permutation_sym (order_by_perm (by_created_desc _) _))).
        exact Hin.
      * intros [uname Hin].
        apply (Permutation_in _ (order_by_perm (by_created_desc _) _)) in Hin.
        apply left_join_sound in Hin. destruct Hin as [Hin _].
        apply filter_In in Hin. destruct Hin as [Hin Hid].
        apply Z.eqb_eq in Hid. now split.
    + intros Hnone.
      assert (Hf : List.filter (fun p => Z.eqb (p_user_id p) user_id) (posts (db w)) = []).
      { apply filter_nil_iff. intros p Hp. apply Z.eqb_neq. now apply Hnone. }
      rewrite Hf. reflexivity.
    + cbn. now rewrite <- !app_assoc.
Qed.

(** ** The creating handlers *)

Lemma writing_runs q handler w :
  writing q handler w =
  match connect_fault (faults w) with
  | Some e => (handler e, emit EvConnectFailed w)
  | None =>
      match execute_fault (faults w) with
      | Some e => (handler e, emit (EvExecute (next_conn w) q) (connected w))
      | None =>
          match run_query q (db w) with
          | inl e => (handler e, emit (EvExecute (next_conn w) q) (connected w))
          | inr (rows, s') =>
              match commit_fault (faults w) with
              | Some e => (handler e, emit (EvCommit (next_conn w)) (queried w q s'))
              | None =>
                  (jsonify (fetchone (mkCursor (next_conn w) rows)) 201,
                   released (next_conn w) (committed w q s'))
              end
          end
      end
  end.
Proof.
  unfold writing, try_except, bind at 1.
  destruct (connect_fault (faults w)) as [e | ] eqn:Hc.
  - now rewrite (get_db_connection_fails w e Hc).
  - rewrite (get_db_connection_ok w Hc). unfold bind at 1, cursor, ret at 1.
    unfold bind at 1.
    destruct (execute_fault (faults w)) as [e | ] eqn:He.
    + rewrite (execute_rejected w q e) by (left; exact He). reflexivity.
    + destruct (run_query q (db w)) as [e | [rows s']] eqn:Hq.
      * rewrite (execute_rejected w q e) by (right; now split). reflexivity.
      * rewrite (execute_accepted w q rows s' He Hq).
        fold (queried w q s'). unfold bind at 1, commit.
        assert (Hl : conns (queried w q s') !! next_conn w = Some (Some s'))
          by (unfold queried; cbn; apply lookup_insert_eq).
        rewrite Hl. change (faults (queried w q s')) with (faults w).
        destruct (commit_fault (faults w)) as [e | ]; reflexivity.
Qed.

Lemma missing_required_dict m k1 k2 w :
  missing_required (VDict m) k1 k2 w = (Ok (lacks m k1 || lacks m k2), w).
Proof.
  unfold missing_required, lacks. cbn [truthy]. rewrite negb_involutive.
  destruct (Nat.eqb_spec (size m) 0) as [Hz | Hnz].
  - apply map_size_empty_iff in Hz. subst m. rewrite !lookup_empty.
    reflexivity.
  - unfold bind, contains, ret.
    destruct (bool_decide (is_Some (m !! k1))); reflexivity.
Qed.

Lemma missing_required_falsy data k1 k2 w :
  truthy data = false -> missing_required data k1 k2 w = (Ok true, w).
Proof. intros H. unfold missing_required. now rewrite H. Qed.

Lemma lacks_false m k : lacks m k = false <-> is_Some (m !! k).
Proof.
  unfold lacks. rewrite negb_false_iff. apply bool_decide_eq_true.
Qed.

Lemma lacks_true m k : lacks m k = true <-> m !! k = None.
Proof.
  unfold lacks. rewrite negb_true_iff, bool_decide_eq_false.
  rewrite <- eq_None_not_Some. reflexivity.
Qed.

Lemma create_user_rejected data w :
  missing_required data "username" "email" w = (Ok true, w) ->
  create_user data w
  = (jsonify (error_body "username and email are required") 400, w).
Proof.
  intros H. unfold create_user, try_except, bind at 1. now rewrite H.
Qed.

Lemma create_user_writes m uv ev w :
  m !! "username" = Some uv -> m !! "email" = Some ev ->
  create_user (VDict m) w = writing (InsertUser uv ev) conflict_or_service_error w.
Proof.
  intros Hu He. unfold create_user, writing, try_except, conflict_or_service_error.
  unfold bind, cursor, ret, getitem.
  rewrite missing_required_dict.
  rewrite (proj2 (lacks_false m "username")), (proj2 (lacks_false m "email"))
    by (rewrite ?Hu, ?He; eauto).
  cbn [orb]. rewrite Hu, He.
  destruct (get_db_connection w) as [[c | e] w1]; reflexivity.
Qed.

Lemma conflict_or_service_error_status e :
  status (conflict_or_service_error e) = 409
  \/ status (conflict_or_service_error e) = 500.
Proof. unfold conflict_or_service_error. destruct (is_integrity e); auto. Qed.

(** C3: a create-user payload (a dict) that lacks the key [username] or
    the key [email] is answered 400 and the world is left as it was: no
    connection is opened, no statement runs, no row is inserted. A payload
    that has both keys, whatever their values, is not answered 400: the
    handler goes on to open a connection. *)
Theorem create_user_requires_both_keys (m : gmap string value) (w : World) :
  ((m !! "username" = None \/ m !! "email" = None) ->
     create_user (VDict m) w
     = (jsonify (error_body "username and email are required") 400, w))
  /\ (is_Some (m !! "username") -> is_Some (m !! "email") ->
     status (fst (create_user (VDict m) w)) <> 400
     /\ exists ev calls,
          log (snd (create_user (VDict m) w)) = (log w ++ ev :: calls)%list
          /\ (ev = EvConnect (next_conn w) \/ ev = EvConnectFailed)).
Proof.
  split.
  - intros Habsent. apply create_user_rejected.
    rewrite missing_required_dict. f_equal. f_equal.
    apply orb_true_iff. rewrite !lacks_true. exact Habsent.
  - intros [uv Hu] [ev He].
    rewrite (create_user_writes m uv ev w Hu He), writing_runs.
    set (q := InsertUser uv ev). set (c := next_conn w).
    destruct (connect_fault (faults w)) as [e | ].
    { split; [cbn [fst]; destruct (conflict_or_service_error_status e) as [-> | ->]; lia | ].
      exists EvConnectFailed, []. auto. }
    assert (Hexec : (log (emit (EvExecute c q) (connected w))
                     = log w ++ EvConnect c :: [EvExecute c q])%list)
      by (cbn; now rewrite <- app_assoc).
    destruct (execute_fault (faults w)) as [e | ].
    { split; [cbn [fst]; destruct (conflict_or_service_error_status e) as [-> | ->]; lia | ].
      exists (EvConnect c), [EvExecute c q]. auto. }
    destruct (run_query q (db w)) as [e | [rows s']].
    { split; [cbn [fst]; destruct (conflict_or_service_error_status e) as [-> | ->]; lia | ].
      exists (EvConnect c), [EvExecute c q]. auto. }
    destruct (commit_fault (faults w)) as [e | ].
    { split; [cbn [fst]; destruct (conflict_or_service_error_status e) as [-> | ->]; lia | ].
      exists (EvConnect c), [EvExecute c q; EvCommit c].
      split; [cbn; now rewrite <- !app_assoc | auto]. }
    split; [cbn; lia | ].
    exists (EvConnect c), [EvExecute c q; EvCommit c; EvClose c].
    split; [cbn; now rewrite <- !app_assoc | auto].
Qed.

Lemma unique_violation_iff name mail us :
  unique_violation name mail us = true
  <-> exists u, In u us /\ (u_username u = name \/ u_email u = mail).
Proof.
  unfold unique_violation. rewrite existsb_exists.
  split; intros [u [Hu H]]; exists u; (split; [exact Hu | ]).
  - apply orb_true_iff in H. destruct H as [H | H]; apply String.eqb_eq in H; auto.
  - apply orb_true_iff. destruct H as [H | H]; apply String.eqb_eq in H; auto.
Qed.

(** C2: when the insert of create-user fails on the uniqueness of
    [username] or [email], the answer is 409 with the fixed body
    [{error: Username or email already exists}] and the tables are as they
    were; a failure of the insert that is not an integrity error is
    answered 500 with the error's own message instead. *)
Theorem create_user_conflict (m : gmap string value) (name mail : string)
    (w : World) :
  m !! "username" = Some (VStr name) ->
  m !! "email" = Some (VStr mail) ->
  connect_fault (faults w) = None ->
  (execute_fault (faults w) = None ->
   (exists u, In u (users (db w)) /\ (u_username u = name \/ u_email u = mail)) ->
     fst (create_user (VDict m) w)
     = jsonify (error_body "Username or email already exists") 409
     /\ db (snd (create_user (VDict m) w)) = db w)
  /\ (forall e, is_integrity e = false ->
        rejects w (InsertUser (VStr name) (VStr mail)) e ->
        fst (create_user (VDict m) w) = jsonify (error_body (str e)) 500).
Proof.
  intros Hu He Hc.
  rewrite (create_user_writes m _ _ w Hu He), writing_runs, Hc.
  split.
  - intros Hx Hdup. rewrite Hx. cbn [run_query insert_user as_text].
    rewrite (proj2 (unique_violation_iff name mail (users (db w))) Hdup).
    split; reflexivity.
  - intros e Hne [Hx | [Hx Hq]]; rewrite Hx.
    + unfold conflict_or_service_error. now rewrite Hne.
    + rewrite Hq. unfold conflict_or_service_error. now rewrite Hne.
Qed.

Lemma create_post_rejected data w :
  missing_required data "user_id" "title" w = (Ok true, w) ->
  create_post data w
  = (jsonify (error_body "user_id and title are required") 400, w).
Proof.
  intros H. unfold create_post, try_except, bind at 1. now rewrite H.
Qed.

Lemma create_post_writes m uv tv w :
  m !! "user_id" = Some uv -> m !! "title" = Some tv ->
  create_post (VDict m) w = writing (post_insert m uv tv) service_error w.
Proof.
  intros Hu Ht. unfold create_post, writing, try_except, post_insert, field_or.
  unfold bind, cursor, ret, getitem, get.
  rewrite missing_required_dict.
  rewrite (proj2 (lacks_false m "user_id")), (proj2 (lacks_false m "title"))
    by (rewrite ?Hu, ?Ht; eauto).
  cbn [orb]. rewrite Hu, Ht.
  destruct (get_db_connection w) as [[c | e] w1]; reflexivity.
Qed.

Lemma insert_post_accepted uv tv cv sv s rows s' :
  insert_post uv tv cv sv s = inr (rows, s') ->
  exists uid t c st,
    uv = VInt uid /\ tv = VStr t /\ cv = VStr c /\ sv = VStr st /\
    rows = [returned_post_row (mkPost (next_post_id s) uid t c st (now s))] /\
    posts s' = (posts s ++ [mkPost (next_post_id s) uid t c st (now s)])%list.
Proof.
  unfold insert_post.
  destruct uv; cbn; try discriminate.
  destruct tv; cbn; try discriminate.
  destruct cv; cbn; try discriminate.
  destruct sv; cbn; try discriminate.
  destruct (enforce_fk s && negb (user_exists n (users s))); [discriminate | ].
  intros H. inversion H; subst. eexists _, _, _, _. repeat split.
Qed.

Lemma returned_post_row_dom p :
  dom (returned_post_row p)
  = ({[ "id"; "user_id"; "title"; "content"; "status"; "created_at" ]} : gset string).
Proof.
  unfold returned_post_row. rewrite !dom_insert_L, dom_singleton_L. set_solver.
Qed.

(** C4: for a create-post payload with [user_id] and [title], a 201
    answer carries the row the insert returned: exactly the fields [id],
    [user_id], [title], [content], [status] and [created_at], without
    [username]. That row is the one added to the posts, and its content
    is the empty string when the payload has no [content], its status
    [draft] when the payload has no [status]. *)
Theorem create_post_defaults (m : gmap string value) (w : World) :
  is_Some (m !! "user_id") ->
  is_Some (m !! "title") ->
  status (fst (create_post (VDict m) w)) = 201 ->
  exists p,
    body (fst (create_post (VDict m) w)) = VDict (returned_post_row p)
    /\ dom (returned_post_row p)
       = ({[ "id"; "user_id"; "title"; "content"; "status"; "created_at" ]}
          : gset string)
    /\ returned_post_row p !! "username" = None
    /\ posts (db (snd (create_post (VDict m) w))) = (posts (db w) ++ [p])%list
    /\ (m !! "content" = None ->
        p_content p = "" /\ returned_post_row p !! "content" = Some (VStr ""))
    /\ (m !! "status" = None ->
        p_status p = "draft"
        /\ returned_post_row p !! "status" = Some (VStr "draft")).
Proof.
  intros [uv Hu] [tv Ht].
  rewrite (create_post_writes m uv tv w Hu Ht), writing_runs.
  destruct (connect_fault (faults w)); [cbn; discriminate | ].
  destruct (execute_fault (faults w)); [cbn; discriminate | ].
  destruct (run_query _ (db w)) as [e | [rows s']] eqn:Hq; [cbn; discriminate | ].
  destruct (commit_fault (faults w)); [cbn; discriminate | ].
  intros _. unfold post_insert in Hq. cbn [run_query] in Hq.
  apply insert_post_accepted in Hq.
  destruct Hq as (uid & t & c & st & -> & -> & Hc & Hs & -> & Hposts).
  eexists. split; [reflexivity | ].
  split; [apply returned_post_row_dom | ].
  split; [unfold returned_post_row; now simplify_map_eq | ].
  split; [exact Hposts | ].
  unfold field_or in Hc, Hs.
  split; intros Hnone.
  - rewrite Hnone in Hc. inversion Hc; subst. split; [reflexivity | ].
    unfold returned_post_row. now simplify_map_eq.
  - rewrite Hnone in Hs. inversion Hs; subst. split; [reflexivity | ].
    unfold returned_post_row. now simplify_map_eq.
Qed.

(** What [create_post] does with a payload, whatever it is: it rejects it,
    or an operation on the payload raises before or after the connection
    is opened, or opening the connection fails, or the payload is a dict
    with both required keys and the insert is attempted. *)
Lemma create_post_cases data w :
  create_post data w
  = (jsonify (error_body "user_id and title are required") 400, w)
  \/ (exists e, create_post data w = (service_error e, w))
  \/ (exists e, create_post data w = (service_error e, emit EvConnectFailed w))
  \/ (exists e, create_post data w = (service_error e, connected w))
  \/ (exists m uv tv,
        data = VDict m /\ m !! "user_id" = Some uv /\ m !! "title" = Some tv).
Proof.
  destruct data as [ | b | n | s | t | l | m].
  7: {
    destruct (m !! "user_id") as [uv | ] eqn:Hu;
      [destruct (m !! "title") as [tv | ] eqn:Ht | ].
    - do 4 right. now exists m, uv, tv.
    - left. apply create_post_rejected. rewrite missing_required_dict.
      rewrite (proj2 (lacks_true m "title") Ht). now rewrite orb_true_r.
    - left. apply create_post_rejected. rewrite missing_required_dict.
      now rewrite (proj2 (lacks_true m "user_id") Hu). }
  all: unfold create_post, try_except, bind, missing_required, bind, contains,
         getitem, get, cursor, ret, raise; cbn [truthy negb].
  - now left.
  - destruct b; cbn [negb]; [right; left; eauto | now left].
  - destruct (Z.eqb n 0); cbn [negb]; [now left | right; left; eauto].
  - destruct (String.eqb s ""); cbn [negb]; [now left | ].
    destruct (is_substring "user_id" s); cbn [negb]; [ | now left].
    destruct (is_substring "title" s); cbn [negb]; [ | now left].
    destruct (connect_fault (faults w)) as [e | ] eqn:Hc.
    + rewrite (get_db_connection_fails w e Hc). right; right; left; eauto.
    + rewrite (get_db_connection_ok w Hc). right; right; right; left; eauto.
  - right; left; eauto.
  - destruct l as [ | x l]; [now left | ].
    destruct (existsb (str_eq_value "user_id") (x :: l)); cbn [negb]; [ | now left].
    destruct (existsb (str_eq_value "title") (x :: l)); cbn [negb]; [ | now left].
    destruct (connect_fault (faults w)) as [e | ] eqn:Hc.
    + rewrite (get_db_connection_fails w e Hc). right; right; left; eauto.
    + rewrite (get_db_connection_ok w Hc). right; right; right; left; eauto.
Qed.

Lemma writing_service_error_calls q w :
  is_select q = false ->
  (status (fst (writing q service_error w)) = 201
   \/ status (fst (writing q service_error w)) = 500)
  /\ exists calls,
       log (snd (writing q service_error w)) = (log w ++ calls)%list
       /\ Forall no_select calls.
Proof.
  intros Hq. rewrite writing_runs. set (c := next_conn w).
  destruct (connect_fault (faults w)) as [e | ].
  { split; [now right | ]. exists [EvConnectFailed]. split; [reflexivity | ].
    repeat constructor. }
  assert (Hcalls : exists calls,
             log (emit (EvExecute c q) (connected w)) = (log w ++ calls)%list
             /\ Forall no_select calls).
  { exists [EvConnect c; EvExecute c q].
    split; [cbn; now rewrite <- app_assoc | ]. repeat constructor. exact Hq. }
  destruct (execute_fault (faults w)) as [e | ]; [split; [now right | exact Hcalls] | ].
  destruct (run_query q (db w)) as [e | [rows s']];
    [split; [now right | exact Hcalls] | ].
  destruct (commit_fault (faults w)) as [e | ].
  - split; [now right | ]. exists [EvConnect c; EvExecute c q; EvCommit c].
    split; [cbn; now rewrite <- !app_assoc | ]. repeat constructor. exact Hq.
  - split; [now left | ].
    exists [EvConnect c; EvExecute c q; EvCommit c; EvClose c].
    split; [cbn; now rewrite <- !app_assoc | ]. repeat constructor. exact Hq.
Qed.

(** C9: create-post never answers 409 and runs no [SELECT]: it does not
    look the user up before the insert. When the payload has [user_id]
    and [title], the connection opens and the insert fails with [e],
    whatever [e] is (a foreign-key violation included), the answer is 500
    with [{error: str(e)}]. *)
Theorem create_post_failure_is_service_error (data : value) (w : World) :
  status (fst (create_post data w)) <> 409
  /\ (exists calls,
        log (snd (create_post data w)) = (log w ++ calls)%list
        /\ Forall no_select calls)
  /\ (forall m uv tv e,
        data = VDict m ->
        m !! "user_id" = Some uv ->
        m !! "title" = Some tv ->
        connect_fault (faults w) = None ->
        rejects w (post_insert m uv tv) e ->
        fst (create_post data w) = jsonify (error_body (str e)) 500).
Proof.
  split; [ | split].
  - destruct (create_post_cases data w)
      as [H | [[e H] | [[e H] | [[e H] | (m & uv & tv & -> & Hu & Ht)]]]];
      try (rewrite H; cbn; lia).
    rewrite (create_post_writes m uv tv w Hu Ht).
    destruct (writing_service_error_calls (post_insert m uv tv) w eq_refl)
      as [[-> | ->] _]; lia.
  - destruct (create_post_cases data w)
      as [H | [[e H] | [[e H] | [[e H] | (m & uv & tv & -> & Hu & Ht)]]]].
    + rewrite H. exists []. split; [now rewrite app_nil_r | constructor].
    + rewrite H. exists []. split; [now rewrite app_nil_r | constructor].
    + rewrite H. exists [EvConnectFailed]. split; [reflexivity | repeat constructor].
    + rewrite H. exists [EvConnect (next_conn w)].
      split; [reflexivity | repeat constructor].
    + rewrite (create_post_writes m uv tv w Hu Ht).
      apply (writing_service_error_calls (post_insert m uv tv) w eq_refl).
  - intros m uv tv e -> Hu Ht Hc Hrej.
    rewrite (create_post_writes m uv tv w Hu Ht), writing_runs, Hc.
    destruct Hrej as [Hx | [Hx Hq]]; rewrite Hx; [reflexivity | ].
    now rewrite Hq.
Qed.

(** ** Release of the connection *)

(** C1: a connection opened by a handler stays open when the statement
    fails. Creating a user whose username is taken is answered 409, and
    looking a user up while the store drops the link is answered 500; in
    both cases the handler has opened connection 0, has not closed it and
    it is still among the open connections when the response is
    returned. *)
Theorem failed_statement_leaves_connection_open :
  (status (fst (create_user (VDict alice_again) sample_world)) = 409
   /\ log (snd (create_user (VDict alice_again) sample_world))
      = [EvConnect 0;
         EvExecute 0 (InsertUser (VStr "alice") (VStr "alice2@example.com"))]
   /\ conns (snd (create_user (VDict alice_again) sample_world)) !! 0%nat
      = Some None)
  /\ (status (fst (get_user 1 dropping_world)) = 500
      /\ log (snd (get_user 1 dropping_world))
         = [EvConnect 0; EvExecute 0 (SelectUserById 1)]
      /\ conns (snd (get_user 1 dropping_world)) !! 0%nat = Some None).
Proof. vm_compute. repeat split. Qed.

(** Where no statement fails the connection is closed before the handler
    returns. *)
Example get_user_closes_connection :
  status (fst (get_user 1 sample_world)) = 200
  /\ log (snd (get_user 1 sample_world))
     = [EvConnect 0; EvExecute 0 (SelectUserById 1); EvClose 0]
  /\ conns (snd (get_user 1 sample_world)) !! 0%nat = None.
Proof. vm_compute. repeat split. Qed.

(** ** The properties at the sample data *)

Lemma health_reports_connectivity_witness :
  (connect_fault (faults sample_world) = None
   /\ fst (health sample_world)
      = jsonify (VDict {[ "status" := VStr "healthy";
                          "database" := VStr "connected" ]}) 200
   /\ log (snd (health sample_world)) = [EvConnect 0; EvClose 0])
  /\ (connect_fault (faults unreachable_world)
      = Some (DatabaseError "could not connect to server")
      /\ fst (health unreachable_world)
         = jsonify (VDict {[ "status" := VStr "unhealthy";
                             "error" := VStr "could not connect to server" ]}) 503).
Proof.
  split.
  - split; [reflexivity | ].
    destruct (proj1 (health_reports_connectivity sample_world) eq_refl)
      as (Hresp & Hlog & _).
    split; [exact Hresp | exact Hlog].
  - split; [reflexivity | ].
    destruct (proj2 (health_reports_connectivity unreachable_world)
                (DatabaseError "could not connect to server") eq_refl)
      as (Hresp & _).
    exact Hresp.
Defined.

Lemma lookup_by_identifier_witness :
  (exists u, In u (users (db sample_world)) /\ u_id u = 1 /\
     fst (get_user 1 sample_world) = jsonify (VDict (user_row u)) 200)
  /\ fst (get_user 9 sample_world) = jsonify (error_body "User not found") 404
  /\ (exists p uname, In p (posts (db sample_world)) /\ p_id p = 3 /\
        owner_name p (users (db sample_world)) uname /\
        fst (get_post 3 sample_world) = jsonify (VDict (joined_row (p, uname))) 200)
  /\ fst (get_post 9 sample_world) = jsonify (error_body "Post not found") 404.
Proof.
  split; [ | split; [ | split]].
  - apply (lookup_by_identifier 1 sample_world eq_refl eq_refl).
    exists alice. split; [left; reflexivity | reflexivity].
  - apply (lookup_by_identifier 9 sample_world eq_refl eq_refl).
    intros u [<- | [<- | []]]; discriminate.
  - apply (lookup_by_identifier 3 sample_world eq_refl eq_refl).
    exists post3. split; [right; right; left; reflexivity | reflexivity].
  - apply (lookup_by_identifier 9 sample_world eq_refl eq_refl).
    intros p [<- | [<- | [<- | []]]]; discriminate.
Defined.


(** Newest first; the two posts of time 200 come in one order from one
    store and in the other order from another store with the same
    tables: the statement does not decide. *)
Example list_posts_ties :
  users other_choice_store = users sample_store
  /\ posts other_choice_store = posts sample_store
  /\ fst (list_posts sample_world)
     = jsonify (posts_body [(post3, None); (post1, Some "alice"); (post2, Some "bob")]) 200
  /\ fst (list_posts other_choice_world)
     = jsonify (posts_body [(post3, None); (post2, Some "bob"); (post1, Some "alice")]) 200.
Proof. repeat split; vm_compute; reflexivity. Qed.

Lemma get_user_posts_empty_is_success_witness :
  connect_fault (faults sample_world) = None
  /\ execute_fault (faults sample_world) = None
  /\ (forall p, In p (posts (db sample_world)) -> p_user_id p <> 5)
  /\ user_exists 5 (users (db sample_world)) = false
  /\ fst (get_user_posts 5 sample_world) = jsonify (VList []) 200.
Proof.
  assert (Hnone : forall p, In p (posts (db sample_world)) -> p_user_id p <> 5)
    by (intros p [<- | [<- | [<- | []]]]; discriminate).
  split; [reflexivity | split; [reflexivity | split; [exact Hnone | ]]].
  split; [reflexivity | ].
  destruct (proj2 (get_user_posts_empty_is_success 5 sample_world) eq_refl eq_refl)
    as (mine & Hresp & _ & Hempty & _).
  rewrite Hresp. rewrite (Hempty Hnone). reflexivity.
Defined.

Lemma create_user_conflict_witness :
  alice_again !! "username" = Some (VStr "alice")
  /\ alice_again !! "email" = Some (VStr "alice2@example.com")
  /\ fst (create_user (VDict alice_again) sample_world)
     = jsonify (error_body "Username or email already exists") 409
  /\ db (snd (create_user (VDict alice_again) sample_world)) = db sample_world
  /\ fst (create_user (VDict alice_again) dropping_world)
     = jsonify (error_body "server closed the connection unexpectedly") 500.
Proof.
  assert (Hu : alice_again !! "username" = Some (VStr "alice")) by reflexivity.
  assert (He : alice_again !! "email" = Some (VStr "alice2@example.com"))
    by reflexivity.
  split; [exact Hu | split; [exact He | ]].
  destruct (create_user_conflict alice_again "alice" "alice2@example.com"
              sample_world Hu He eq_refl) as [Hdup _].
  destruct (create_user_conflict alice_again "alice" "alice2@example.com"
              dropping_world Hu He eq_refl) as [_ Hother].
  destruct Hdup as [Hresp Hdb].
  { reflexivity. }
  { exists alice. split; [left; reflexivity | left; reflexivity]. }
  split; [exact Hresp | split; [exact Hdb | ]].
  apply (Hother (DatabaseError "server closed the connection unexpectedly")).
  - reflexivity.
  - left. reflexivity.
Defined.

Lemma create_user_requires_both_keys_witness :
  no_email !! "email" = None
  /\ create_user (VDict no_email) sample_world
     = (jsonify (error_body "username and email are required") 400, sample_world)
  /\ is_Some (empty_fields !! "username")
  /\ is_Some (empty_fields !! "email")
  /\ status (fst (create_user (VDict empty_fields) sample_world)) <> 400.
Proof.
  assert (Hnone : no_email !! "email" = None) by reflexivity.
  assert (Hu : is_Some (empty_fields !! "username")) by (eexists; reflexivity).
  assert (He : is_Some (empty_fields !! "email")) by (eexists; reflexivity).
  split; [exact Hnone | ].
  split; [apply (create_user_requires_both_keys no_email sample_world); now right | ].
  split; [exact Hu | split; [exact He | ]].
  apply (proj2 (create_user_requires_both_keys empty_fields sample_world) Hu He).
Defined.

Lemma create_post_defaults_witness :
  is_Some (bare_post !! "user_id")
  /\ is_Some (bare_post !! "title")
  /\ status (fst (create_post (VDict bare_post) sample_world)) = 201
  /\ exists p,
       body (fst (create_post (VDict bare_post) sample_world))
       = VDict (returned_post_row p)
       /\ posts (db (snd (create_post (VDict bare_post) sample_world)))
          = [post1; post2; post3; p]
       /\ p_content p = "" /\ p_status p = "draft".
Proof.
  assert (Hu : is_Some (bare_post !! "user_id")) by (eexists; reflexivity).
  assert (Ht : is_Some (bare_post !! "title")) by (eexists; reflexivity).
  assert (Hok : status (fst (create_post (VDict bare_post) sample_world)) = 201)
    by (vm_compute; reflexivity).
  split; [exact Hu | split; [exact Ht | split; [exact Hok | ]]].
  destruct (create_post_defaults bare_post sample_world Hu Ht Hok)
    as (p & Hbody & _ & _ & Hposts & Hcontent & Hstatus).
  exists p. split; [exact Hbody | split; [exact Hposts | ]].
  split; [apply Hcontent | apply Hstatus]; reflexivity.
Defined.

Lemma create_post_failure_is_service_error_witness :
  orphan_post !! "user_id" = Some (VInt 9)
  /\ orphan_post !! "title" = Some (VStr "nobody")
  /\ rejects sample_world (post_insert orphan_post (VInt 9) (VStr "nobody"))
       (IntegrityError "insert on table posts violates foreign key constraint")
  /\ fst (create_post (VDict orphan_post) sample_world)
     = jsonify (error_body "insert on table posts violates foreign key constraint") 500.
Proof.
  assert (Hu : orphan_post !! "user_id" = Some (VInt 9)) by reflexivity.
  assert (Ht : orphan_post !! "title" = Some (VStr "nobody")) by reflexivity.
  assert (Hrej : rejects sample_world
                   (post_insert orphan_post (VInt 9) (VStr "nobody"))
                   (IntegrityError "insert on table posts violates foreign key constraint"))
    by (right; split; reflexivity).
  split; [exact Hu | split; [exact Ht | split; [exact Hrej | ]]].
  apply (proj2 (proj2 (create_post_failure_is_service_error
                         (VDict orphan_post) sample_world))
           orphan_post (VInt 9) (VStr "nobody") _ eq_refl Hu Ht eq_refl Hrej).
Defined.

(** * Further properties *)

(** ** Listing users *)

Lemma list_users_runs w :
  connect_fault (faults w) = None -> execute_fault (faults w) = None ->
  list_users w
  = (jsonify (users_body
                (order_by (by_id_asc (tie_first (db w))) (users (db w)))) 200,
     released (next_conn w) (queried w SelectUsers (db w))).
Proof.
  intros Hc He. rewrite list_users_reading, reading_runs by reflexivity.
  now rewrite Hc, He.
Qed.

(** X1: with the store answering, list-users answers 200 with all the
    users, each once, by ascending identifier; with no user the body is
    the empty list. *)
Theorem list_users_ordered_by_id (w : World) :
  connect_fault (faults w) = None ->
  execute_fault (faults w) = None ->
  exists rows,
    fst (list_users w) = jsonify (users_body rows) 200
    /\ Permutation rows (users (db w))
    /\ (forall (i j : nat) a b,
          (i < j)%nat -> rows !! i = Some a -> rows !! j = Some b ->
          u_id a <= u_id b)
    /\ (users (db w) = [] -> users_body rows = VList []).
Proof.
  intros Hc He. rewrite (list_users_runs w Hc He).
  exists (order_by (by_id_asc (tie_first (db w))) (users (db w))).
  split; [reflexivity | ]. split; [apply order_by_perm | ]. split.
  - intros i j a b Hij Hi Hj.
    assert (Hs : StronglySorted (fun a b => u_id a <= u_id b)
                   (order_by (by_id_asc (tie_first (db w))) (users (db w)))).
    { apply order_by_sorted; unfold by_id_asc.
      - intros x y z H1 H2. lia.
      - intros x y H.
        destruct (Z.eqb_spec (u_id x) (u_id y)) as [E | E]; [lia | ].
        apply Z.ltb_lt in H. lia.
      - intros x y H.
        destruct (Z.eqb_spec (u_id x) (u_id y)) as [E | E]; [lia | ].
        apply Z.ltb_ge in H. lia. }
    exact (strongly_sorted_lookup _ _ Hs i j a b Hij Hi Hj).
  - intros ->. reflexivity.
Qed.

Lemma list_users_ordered_by_id_witness :
  connect_fault (faults sample_world) = None
  /\ execute_fault (faults sample_world) = None
  /\ exists rows,
       fst (list_users sample_world) = jsonify (users_body rows) 200
       /\ Permutation rows (users (db sample_world)).
Proof.
  split; [reflexivity | split; [reflexivity | ]].
  destruct (list_users_ordered_by_id sample_world eq_refl eq_refl)
    as (rows & Hresp & Hperm & _).
  exists rows. split; [exact Hresp | exact Hperm].
Defined.

(** ** The store cannot be reached *)

(** X2: when opening the connection fails with [e], each of the five
    reading handlers answers 500 with [{error: str(e)}], and so do the
    two creating handlers for a payload with the required keys (for
    create-user, provided [e] is not an integrity error). Nothing but the
    failed attempt is added to the world: tables and open connections
    stay as they were. *)
Theorem unreachable_store_is_service_error (w : World) (e : exn) :
  connect_fault (faults w) = Some e ->
  let failed := (jsonify (error_body (str e)) 500, emit EvConnectFailed w) in
  list_users w = failed
  /\ (forall id, get_user id w = failed)
  /\ list_posts w = failed
  /\ (forall id, get_post id w = failed)
  /\ (forall id, get_user_posts id w = failed)
  /\ (forall m, is_Some (m !! "user_id") -> is_Some (m !! "title") ->
        create_post (VDict m) w = failed)
  /\ (forall m, is_Some (m !! "username") -> is_Some (m !! "email") ->
        is_integrity e = false ->
        create_user (VDict m) w = failed).
Proof.
  intros Hc failed. subst failed.
  split; [ | split; [ | split; [ | split; [ | split; [ | split]]]]].
  - rewrite list_users_reading, reading_runs by reflexivity. now rewrite Hc.
  - intros id. rewrite get_user_reading, reading_runs by reflexivity.
    now rewrite Hc.
  - rewrite list_posts_reading, reading_runs by reflexivity. now rewrite Hc.
  - intros id. rewrite get_post_reading, reading_runs by reflexivity.
    now rewrite Hc.
  - intros id. rewrite get_user_posts_reading, reading_runs by reflexivity.
    now rewrite Hc.
  - intros m [uv Hu] [tv Ht].
    rewrite (create_post_writes m uv tv w Hu Ht), writing_runs. now rewrite Hc.
  - intros m [uv Hu] [ev He] Hne.
    rewrite (create_user_writes m uv ev w Hu He), writing_runs, Hc.
    unfold conflict_or_service_error. now rewrite Hne.
Qed.

Lemma unreachable_store_is_service_error_witness :
  connect_fault (faults unreachable_world)
  = Some (DatabaseError "could not connect to server")
  /\ list_posts unreachable_world
     = (jsonify (error_body "could not connect to server") 500,
        emit EvConnectFailed unreachable_world)
  /\ create_user (VDict alice_again) unreachable_world
     = (jsonify (error_body "could not connect to server") 500,
        emit EvConnectFailed unreachable_world).
Proof.
  split; [reflexivity | ].
  destruct (unreachable_store_is_service_error unreachable_world
              (DatabaseError "could not connect to server") eq_refl)
    as (_ & _ & Hposts & _ & _ & _ & Hcreate).
  split; [exact Hposts | ].
  apply Hcreate; [eexists; reflexivity | eexists; reflexivity | reflexivity].
Defined.

(** ** Validation of the payloads *)

(** X3: a create-post payload (a dict) that lacks [user_id] or [title] is
    answered 400 with [user_id and title are required] and the world is
    left as it was; one that has both, whatever their values, is not
    answered 400 and the handler goes on to open a connection. *)
Theorem create_post_requires_both_keys (m : gmap string value) (w : World) :
  ((m !! "user_id" = None \/ m !! "title" = None) ->
     create_post (VDict m) w
     = (jsonify (error_body "user_id and title are required") 400, w))
  /\ (is_Some (m !! "user_id") -> is_Some (m !! "title") ->
     status (fst (create_post (VDict m) w)) <> 400
     /\ exists ev calls,
          log (snd (create_post (VDict m) w)) = (log w ++ ev :: calls)%list
          /\ (ev = EvConnect (next_conn w) \/ ev = EvConnectFailed)).
Proof.
  split.
  - intros Habsent. apply create_post_rejected.
    rewrite missing_required_dict. f_equal. f_equal.
    apply orb_true_iff. rewrite !lacks_true. exact Habsent.
  - intros [uv Hu] [tv Ht].
    rewrite (create_post_writes m uv tv w Hu Ht), writing_runs.
    set (q := post_insert m uv tv). set (c := next_conn w).
    destruct (connect_fault (faults w)) as [e | ].
    { split; [cbn; lia | ]. exists EvConnectFailed, []. auto. }
    assert (Hexec : (log (emit (EvExecute c q) (connected w))
                     = log w ++ EvConnect c :: [EvExecute c q])%list)
      by (cbn; now rewrite <- app_assoc).
    destruct (execute_fault (faults w)) as [e | ].
    { split; [cbn; lia | ]. exists (EvConnect c), [EvExecute c q]. auto. }
    destruct (run_query q (db w)) as [e | [rows s']].
    { split; [cbn; lia | ]. exists (EvConnect c), [EvExecute c q]. auto. }
    destruct (commit_fault (faults w)) as [e | ].
    { split; [cbn; lia | ].
      exists (EvConnect c), [EvExecute c q; EvCommit c].
      split; [cbn; now rewrite <- !app_assoc | auto]. }
    split; [cbn; lia | ].
    exists (EvConnect c), [EvExecute c q; EvCommit c; EvClose c].
    split; [cbn; now rewrite <- !app_assoc | auto].
Qed.

Lemma create_post_requires_both_keys_witness :
  no_email !! "user_id" = None
  /\ create_post (VDict no_email) sample_world
     = (jsonify (error_body "user_id and title are required") 400, sample_world)
  /\ is_Some (bare_post !! "user_id")
  /\ is_Some (bare_post !! "title")
  /\ status (fst (create_post (VDict bare_post) sample_world)) <> 400.
Proof.
  assert (Hnone : no_email !! "user_id" = None) by reflexivity.
  assert (Hu : is_Some (bare_post !! "user_id")) by (eexists; reflexivity).
  assert (Ht : is_Some (bare_post !! "title")) by (eexists; reflexivity).
  split; [exact Hnone | ].
  split; [apply (create_post_requires_both_keys no_email sample_world); now left | ].
  split; [exact Hu | split; [exact Ht | ]].
  apply (proj2 (create_post_requires_both_keys bare_post sample_world) Hu Ht).
Defined.

(** X4: a payload that is false as a truth value ([None], [{}], [[]],
    the empty string, [0], [False]) is answered 400 by both creating
    handlers, and the world is left as it was. *)
Theorem falsy_payload_is_bad_request (data : value) (w : World) :
  truthy data = false ->
  create_user data w
  = (jsonify (error_body "username and email are required") 400, w)
  /\ create_post data w
     = (jsonify (error_body "user_id and title are required") 400, w).
Proof.
  intros Hf. split.
  - apply create_user_rejected. now apply missing_required_falsy.
  - apply create_post_rejected. now apply missing_required_falsy.
Qed.

Lemma falsy_payload_is_bad_request_witness :
  truthy VNone = false
  /\ truthy (VList []) = false
  /\ create_user VNone sample_world
     = (jsonify (error_body "username and email are required") 400, sample_world)
  /\ create_post (VList []) sample_world
     = (jsonify (error_body "user_id and title are required") 400, sample_world).
Proof.
  split; [reflexivity | split; [reflexivity | ]].
  split.
  - apply (falsy_payload_is_bad_request VNone sample_world). reflexivity.
  - apply (falsy_payload_is_bad_request (VList []) sample_world). reflexivity.
Defined.

(** ** The outcomes of the handlers *)

Lemma create_user_cases data w :
  create_user data w
  = (jsonify (error_body "username and email are required") 400, w)
  \/ (exists e, create_user data w = (service_error e, w))
  \/ (exists e, create_user data w
                = (conflict_or_service_error e, emit EvConnectFailed w))
  \/ (exists e, create_user data w = (service_error e, connected w))
  \/ (exists m uv ev,
        data = VDict m /\ m !! "username" = Some uv /\ m !! "email" = Some ev).
Proof.
  destruct data as [ | b | n | s | t | l | m].
  7: {
    destruct (m !! "username") as [uv | ] eqn:Hu;
      [destruct (m !! "email") as [ev | ] eqn:He | ].
    - do 4 right. now exists m, uv, ev.
    - left. apply create_user_rejected. rewrite missing_required_dict.
      rewrite (proj2 (lacks_true m "email") He). now rewrite orb_true_r.
    - left. apply create_user_rejected. rewrite missing_required_dict.
      now rewrite (proj2 (lacks_true m "username") Hu). }
  all: unfold create_user, try_except, bind, missing_required, bind, contains,
         getitem, cursor, ret, raise; cbn [truthy negb].
  - now left.
  - destruct b; cbn [negb]; [right; left; eexists; reflexivity | now left].
  - destruct (Z.eqb n 0); cbn [negb]; [now left | right; left; eexists; reflexivity].
  - destruct (String.eqb s ""); cbn [negb]; [now left | ].
    destruct (is_substring "username" s); cbn [negb]; [ | now left].
    destruct (is_substring "email" s); cbn [negb]; [ | now left].
    destruct (connect_fault (faults w)) as [e | ] eqn:Hc.
    + rewrite (get_db_connection_fails w e Hc). right; right; left; eauto.
    + rewrite (get_db_connection_ok w Hc).
      right; right; right; left; eexists; reflexivity.
  - right; left; eexists; reflexivity.
  - destruct l as [ | x l]; [now left | ].
    destruct (existsb (str_eq_value "username") (x :: l)); cbn [negb]; [ | now left].
    destruct (existsb (str_eq_value "email") (x :: l)); cbn [negb]; [ | now left].
    destruct (connect_fault (faults w)) as [e | ] eqn:Hc.
    + rewrite (get_db_connection_fails w e Hc). right; right; left; eauto.
    + rewrite (get_db_connection_ok w Hc).
      right; right; right; left; eexists; reflexivity.
Qed.

(** A creating handler either ends in one of its [except] clauses with the
    committed tables untouched, or answers 201 after the commit. *)
Lemma writing_outcome q handler w :
  (exists e, fst (writing q handler w) = handler e
             /\ db (snd (writing q handler w)) = db w)
  \/ (exists rows s',
        run_query q (db w) = inr (rows, s')
        /\ faults w = mkFaults None None None
        /\ writing q handler w
           = (jsonify (fetchone (mkCursor (next_conn w) rows)) 201,
              released (next_conn w) (committed w q s'))).
Proof.
  rewrite writing_runs.
  destruct (faults w) as [cf xf mf] eqn:Hf. cbn [connect_fault execute_fault commit_fault].
  destruct cf as [e | ]; [left; exists e; now split | ].
  destruct xf as [e | ]; [left; exists e; now split | ].
  destruct (run_query q (db w)) as [e | [rows s']]; [left; exists e; now split | ].
  destruct mf as [e | ]; [left; exists e; now split | ].
  right. exists rows, s'. repeat split.
Qed.

Lemma insert_user_accepted uv ev s rows s' :
  insert_user uv ev s = inr (rows, s') ->
  exists name mail,
    uv = VStr name /\ ev = VStr mail /\
    unique_violation name mail (users s) = false /\
    rows = [user_row (mkUser (next_user_id s) name mail (now s))] /\
    s' = mkStore (users s ++ [mkUser (next_user_id s) name mail (now s)])
                 (posts s) (next_user_id s + 1) (next_post_id s)
                 (now s) (enforce_fk s) (tie_first s).
Proof.
  unfold insert_user.
  destruct uv; cbn; try discriminate.
  destruct ev; cbn; try discriminate.
  destruct (unique_violation s0 s1 (users s)) eqn:Hu; [discriminate | ].
  intros H. inversion H; subst. exists s0, s1. repeat split. exact Hu.
Qed.

Lemma insert_post_store uv tv cv sv s rows s' :
  insert_post uv tv cv sv s = inr (rows, s') ->
  exists uid t c st,
    uv = VInt uid /\ tv = VStr t /\ cv = VStr c /\ sv = VStr st /\
    (enforce_fk s = true -> user_exists uid (users s) = true) /\
    rows = [returned_post_row (mkPost (next_post_id s) uid t c st (now s))] /\
    s' = mkStore (users s)
                 (posts s ++ [mkPost (next_post_id s) uid t c st (now s)])
                 (next_user_id s) (next_post_id s + 1)
                 (now s) (enforce_fk s) (tie_first s).
Proof.
  unfold insert_post.
  destruct uv; cbn; try discriminate.
  destruct tv; cbn; try discriminate.
  destruct cv; cbn; try discriminate.
  destruct sv; cbn; try discriminate.
  destruct (enforce_fk s) eqn:Hfk; cbn [andb].
  - destruct (user_exists n (users s)) eqn:Hex; cbn [negb]; [ | discriminate].
    intros H. inversion H; subst. eexists _, _, _, _.
    repeat split; intros; congruence.
  - intros H. inversion H; subst. eexists _, _, _, _.
    repeat split; intros; congruence.
Qed.

Lemma reading_status q respond w :
  is_select q = true ->
  status (fst (reading q respond w)) = 500
  \/ exists cur, fst (reading q respond w) = respond cur.
Proof.
  intros Hq. rewrite (reading_runs q respond w Hq).
  destruct (connect_fault (faults w)); [now left | ].
  destruct (execute_fault (faults w)); [now left | ].
  right. eexists. reflexivity.
Qed.

Lemma found_or_status missing cur :
  status (found_or missing cur) = 200 \/ status (found_or missing cur) = 404.
Proof. unfold found_or. destruct (truthy (fetchone cur)); auto. Qed.

(** X5: the status codes of the endpoints, whatever the payload, the
    identifier and the world: 200 or 503 for the health check, 200 for
    the root, 200 or 500 for the three listings, 200, 404 or 500 for the
    two lookups, 201, 400, 409 or 500 for create-user and 201, 400 or 500
    for create-post. *)
Theorem status_codes (data : value) (id : Z) (w : World) :
  In (status (fst (health w))) [200; 503]
  /\ In (status (fst (root w))) [200]
  /\ In (status (fst (list_users w))) [200; 500]
  /\ In (status (fst (get_user id w))) [200; 404; 500]
  /\ In (status (fst (create_user data w))) [201; 400; 409; 500]
  /\ In (status (fst (list_posts w))) [200; 500]
  /\ In (status (fst (get_post id w))) [200; 404; 500]
  /\ In (status (fst (create_post data w))) [201; 400; 500]
  /\ In (status (fst (get_user_posts id w))) [200; 500].
Proof.
  repeat apply conj.
  - unfold health, try_except, bind.
    destruct (connect_fault (faults w)) as [e | ] eqn:Hc.
    + rewrite (get_db_connection_fails w e Hc). cbn. auto.
    + rewrite (get_db_connection_ok w Hc). cbn. auto.
  - cbn. auto.
  - rewrite list_users_reading.
    destruct (reading_status SelectUsers
                (fun cur => jsonify (fetchall cur) 200) w eq_refl)
      as [-> | [cur ->]]; cbn; auto.
  - rewrite get_user_reading.
    destruct (reading_status (SelectUserById id) (found_or "User not found") w eq_refl)
      as [-> | [cur ->]]; [cbn; auto | ].
    destruct (found_or_status "User not found" cur) as [-> | ->]; cbn; auto.
  - destruct (create_user_cases data w)
      as [H | [[e H] | [[e H] | [[e H] | (m & uv & ev & -> & Hu & He)]]]].
    + rewrite H. cbn. auto.
    + rewrite H. cbn. auto.
    + rewrite H. cbn [fst].
      destruct (conflict_or_service_error_status e) as [-> | ->]; cbn; auto.
    + rewrite H. cbn. auto.
    + rewrite (create_user_writes m uv ev w Hu He).
      destruct (writing_outcome (InsertUser uv ev) conflict_or_service_error w)
        as [(e & -> & _) | (rows & s' & _ & _ & ->)]; [ | cbn; auto].
      destruct (conflict_or_service_error_status e) as [-> | ->]; cbn; auto.
  - rewrite list_posts_reading.
    destruct (reading_status SelectPosts
                (fun cur => jsonify (fetchall cur) 200) w eq_refl)
      as [-> | [cur ->]]; cbn; auto.
  - rewrite get_post_reading.
    destruct (reading_status (SelectPostById id) (found_or "Post not found") w eq_refl)
      as [-> | [cur ->]]; [cbn; auto | ].
    destruct (found_or_status "Post not found" cur) as [-> | ->]; cbn; auto.
  - destruct (create_post_cases data w)
      as [H | [[e H] | [[e H] | [[e H] | (m & uv & tv & -> & Hu & Ht)]]]];
      try (rewrite H; cbn; now auto).
    rewrite (create_post_writes m uv tv w Hu Ht).
    destruct (writing_outcome (post_insert m uv tv) service_error w)
      as [(e & -> & _) | (rows & s' & _ & _ & ->)]; cbn; auto.
  - rewrite get_user_posts_reading.
    destruct (reading_status (SelectPostsByUser id)
                (fun cur => jsonify (fetchall cur) 200) w eq_refl)
      as [-> | [cur ->]]; cbn; auto.
Qed.

(** ** What a creating request changes *)

Lemma committed_db c w q s' : db (released c (committed w q s')) = s'.
Proof. reflexivity. Qed.

(** X6: a create request that is not answered 201 leaves the committed
    tables exactly as they were, whatever the payload and the world;
    create-user never changes the posts and create-post never changes the
    users. *)
Theorem creation_is_all_or_nothing (data : value) (w : World) :
  (status (fst (create_user data w)) <> 201 ->
     db (snd (create_user data w)) = db w)
  /\ posts (db (snd (create_user data w))) = posts (db w)
  /\ (status (fst (create_post data w)) <> 201 ->
     db (snd (create_post data w)) = db w)
  /\ users (db (snd (create_post data w))) = users (db w).
Proof.
  assert (Huser :
    db (snd (create_user data w)) = db w
    \/ (status (fst (create_user data w)) = 201
        /\ posts (db (snd (create_user data w))) = posts (db w))).
  { destruct (create_user_cases data w)
      as [H | [[e H] | [[e H] | [[e H] | (m & uv & ev & -> & Hu & He)]]]];
      try (rewrite H; now left).
    rewrite (create_user_writes m uv ev w Hu He).
    destruct (writing_outcome (InsertUser uv ev) conflict_or_service_error w)
      as [(e & _ & Hdb) | (rows & s' & Hq & _ & ->)]; [now left | right].
    split; [reflexivity | ]. cbn [snd]. rewrite committed_db.
    cbn [run_query] in Hq. apply insert_user_accepted in Hq.
    destruct Hq as (name & mail & _ & _ & _ & _ & ->). reflexivity. }
  assert (Hpost :
    db (snd (create_post data w)) = db w
    \/ (status (fst (create_post data w)) = 201
        /\ users (db (snd (create_post data w))) = users (db w))).
  { destruct (create_post_cases data w)
      as [H | [[e H] | [[e H] | [[e H] | (m & uv & tv & -> & Hu & Ht)]]]];
      try (rewrite H; now left).
    rewrite (create_post_writes m uv tv w Hu Ht).
    destruct (writing_outcome (post_insert m uv tv) service_error w)
      as [(e & _ & Hdb) | (rows & s' & Hq & _ & ->)]; [now left | right].
    split; [reflexivity | ]. cbn [snd]. rewrite committed_db.
    unfold post_insert in Hq. cbn [run_query] in Hq.
    apply insert_post_store in Hq.
    destruct Hq as (uid & t & c & st & _ & _ & _ & _ & _ & _ & ->). reflexivity. }
  split; [ | split; [ | split]].
  - intros Hne. destruct Huser as [H | [H _]]; [exact H | contradiction].
  - destruct Huser as [-> | [_ H]]; [reflexivity | exact H].
  - intros Hne. destruct Hpost as [H | [H _]]; [exact H | contradiction].
  - destruct Hpost as [-> | [_ H]]; [reflexivity | exact H].
Qed.

Lemma creation_is_all_or_nothing_witness :
  status (fst (create_user (VDict alice_again) sample_world)) <> 201
  /\ db (snd (create_user (VDict alice_again) sample_world)) = db sample_world
  /\ status (fst (create_post (VDict orphan_post) sample_world)) <> 201
  /\ db (snd (create_post (VDict orphan_post) sample_world)) = db sample_world.
Proof.
  assert (Hu : status (fst (create_user (VDict alice_again) sample_world)) <> 201)
    by (vm_compute; discriminate).
  assert (Hp : status (fst (create_post (VDict orphan_post) sample_world)) <> 201)
    by (vm_compute; discriminate).
  destruct (creation_is_all_or_nothing (VDict alice_again) sample_world)
    as (Huser & _ & _ & _).
  destruct (creation_is_all_or_nothing (VDict orphan_post) sample_world)
    as (_ & _ & Hpost & _).
  split; [exact Hu | split; [exact (Huser Hu) | split; [exact Hp | exact (Hpost Hp)]]].
Defined.

Lemma not_unique_violation name mail us :
  (forall u, In u us -> u_username u <> name /\ u_email u <> mail) ->
  unique_violation name mail us = false.
Proof.
  intros Hfree. destruct (unique_violation name mail us) eqn:Hv; [ | reflexivity].
  apply unique_violation_iff in Hv. destruct Hv as [u [Hu [H | H]]];
    destruct (Hfree u Hu); contradiction.
Qed.

Lemma log_created c w q s' :
  log (released c (committed w q s'))
  = (log w ++ [EvConnect (next_conn w); EvExecute (next_conn w) q;
               EvCommit (next_conn w); EvClose c])%list.
Proof. cbn. now rewrite <- !app_assoc. Qed.

Lemma conns_created w q s' :
  conns (released (next_conn w) (committed w q s')) = delete (next_conn w) (conns w).
Proof.
  cbn. now rewrite !delete_insert_eq.
Qed.

(** X7: create-user with a username and an email (strings) that no user
    has yet, and no fault of the store, answers 201 with the new row: its
    identifier is the next value of the sequence and its creation time
    the store's clock. The row is added after the others, the sequence
    moves on by one, the posts are untouched, the handler connects,
    inserts, commits and closes, and its connection is closed on
    return. *)
Theorem create_user_inserts (m : gmap string value) (name mail : string)
    (w : World) :
  m !! "username" = Some (VStr name) ->
  m !! "email" = Some (VStr mail) ->
  faults w = no_faults ->
  (forall u, In u (users (db w)) -> u_username u <> name /\ u_email u <> mail) ->
  let u := mkUser (next_user_id (db w)) name mail (now (db w)) in
  let c := next_conn w in
  fst (create_user (VDict m) w) = jsonify (VDict (user_row u)) 201
  /\ db (snd (create_user (VDict m) w))
     = mkStore (users (db w) ++ [u]) (posts (db w))
               (next_user_id (db w) + 1) (next_post_id (db w))
               (now (db w)) (enforce_fk (db w)) (tie_first (db w))
  /\ log (snd (create_user (VDict m) w))
     = (log w ++ [EvConnect c; EvExecute c (InsertUser (VStr name) (VStr mail));
                  EvCommit c; EvClose c])%list
  /\ conns (snd (create_user (VDict m) w)) !! c = None.
Proof.
  intros Hu He Hf Hfree u c.
  rewrite (create_user_writes m _ _ w Hu He), writing_runs, Hf.
  cbn [no_faults connect_fault execute_fault commit_fault run_query insert_user as_text].
  rewrite (not_unique_violation name mail _ Hfree).
  split; [reflexivity | ]. split; [reflexivity | ].
  split; [apply log_created | ].
  cbn [snd]. rewrite conns_created. apply lookup_delete_eq.
Qed.

(** A create-user payload for a new user. *)
Lemma create_user_inserts_witness :
  let m : gmap string value :=
    {[ "username" := VStr "carol"; "email" := VStr "carol@example.com" ]} in
  fst (create_user (VDict m) sample_world)
  = jsonify (VDict (user_row (mkUser 3 "carol" "carol@example.com" 400))) 201
  /\ users (db (snd (create_user (VDict m) sample_world)))
     = [alice; bob; mkUser 3 "carol" "carol@example.com" 400].
Proof.
  intros m.
  destruct (create_user_inserts m "carol" "carol@example.com" sample_world)
    as (Hresp & Hdb & _).
  - reflexivity.
  - reflexivity.
  - reflexivity.
  - intros u [<- | [<- | []]]; split; discriminate.
  - split; [exact Hresp | ]. rewrite Hdb. reflexivity.
Defined.

(** X8: create-post with an integer [user_id], a string [title] and, when
    present, string [content] and [status], no fault of the store and,
    where the store enforces the foreign key, an existing owner, answers
    201 with the new row: the fields as supplied, [content] and [status]
    as supplied or defaulted, the next identifier and the store's clock.
    The row is added after the others and the users are untouched. Where
    the store does not enforce the foreign key this holds for an owner
    that does not exist as well. *)
Theorem create_post_inserts (m : gmap string value) (uid : Z)
    (title content st : string) (w : World) :
  m !! "user_id" = Some (VInt uid) ->
  m !! "title" = Some (VStr title) ->
  field_or m "content" (VStr "") = VStr content ->
  field_or m "status" (VStr "draft") = VStr st ->
  faults w = no_faults ->
  (enforce_fk (db w) = true -> exists u, In u (users (db w)) /\ u_id u = uid) ->
  let p := mkPost (next_post_id (db w)) uid title content st (now (db w)) in
  let c := next_conn w in
  fst (create_post (VDict m) w) = jsonify (VDict (returned_post_row p)) 201
  /\ db (snd (create_post (VDict m) w))
     = mkStore (users (db w)) (posts (db w) ++ [p])
               (next_user_id (db w)) (next_post_id (db w) + 1)
               (now (db w)) (enforce_fk (db w)) (tie_first (db w))
  /\ log (snd (create_post (VDict m) w))
     = (log w ++ [EvConnect c;
                  EvExecute c (InsertPost (VInt uid) (VStr title)
                                 (VStr content) (VStr st));
                  EvCommit c; EvClose c])%list
  /\ conns (snd (create_post (VDict m) w)) !! c = None.
Proof.
  intros Hu Ht Hc Hs Hf Hfk p c.
  rewrite (create_post_writes m _ _ w Hu Ht), writing_runs, Hf.
  unfold post_insert. rewrite Hc, Hs.
  cbn [no_faults connect_fault execute_fault commit_fault run_query insert_post
       as_text as_integer].
  assert (Hok : enforce_fk (db w) && negb (user_exists uid (users (db w))) = false).
  { destruct (enforce_fk (db w)) eqn:E; [ | reflexivity]. cbn [andb].
    destruct (Hfk eq_refl) as [u [Hin Hid]].
    unfold user_exists. apply negb_false_iff. apply existsb_exists.
    exists u. split; [exact Hin | ]. apply Z.eqb_eq. now symmetry. }
  rewrite Hok.
  split; [reflexivity | ]. split; [reflexivity | ].
  split; [apply log_created | ].
  cbn [snd]. rewrite conns_created. apply lookup_delete_eq.
Qed.

Lemma create_post_inserts_witness :
  let m : gmap string value :=
    {[ "user_id" := VInt 2; "title" := VStr "news"; "status" := VStr "published" ]} in
  fst (create_post (VDict m) sample_world)
  = jsonify (VDict (returned_post_row (mkPost 4 2 "news" "" "published" 400))) 201
  /\ posts (db (snd (create_post (VDict m) sample_world)))
     = [post1; post2; post3; mkPost 4 2 "news" "" "published" 400].
Proof.
  intros m.
  destruct (create_post_inserts m 2 "news" "" "published" sample_world)
    as (Hresp & Hdb & _).
  - reflexivity.
  - reflexivity.
  - reflexivity.
  - reflexivity.
  - reflexivity.
  - intros _. exists bob. split; [right; left; reflexivity | reflexivity].
  - split; [exact Hresp | ]. rewrite Hdb. reflexivity.
Defined.

(** ** The tables stay well formed *)

Lemma NoDup_snoc {A B} (f : A -> B) (l : list A) (x : A) :
  NoDup (List.map f l) ->
  (forall y, In y l -> f y <> f x) ->
  NoDup (List.map f (l ++ [x])).
Proof.
  intros Hnd Hfresh. induction l as [ | a l IH]; cbn.
  - constructor; [ | constructor]. apply not_elem_of_nil.
  - cbn in Hnd. apply NoDup_cons in Hnd. destruct Hnd as [Ha Hnd].
    apply NoDup_cons. split.
    + rewrite list_elem_of_In, List.map_app, in_app_iff. intros [Hin | Hin].
      * apply Ha. now apply list_elem_of_In.
      * destruct Hin as [Heq | []]. apply (Hfresh a); [now left | ].
        now symmetry.
    + apply IH; [exact Hnd | ]. intros y Hy. apply Hfresh. now right.
Qed.

Lemma unique_violation_false name mail us :
  unique_violation name mail us = false ->
  forall u, In u us -> u_username u <> name /\ u_email u <> mail.
Proof.
  intros Hv u Hu. split; intros Heq.
  - assert (Ht : unique_violation name mail us = true)
      by (apply unique_violation_iff; exists u; auto).
    congruence.
  - assert (Ht : unique_violation name mail us = true)
      by (apply unique_violation_iff; exists u; auto).
    congruence.
Qed.

Lemma user_exists_app uid us us' :
  user_exists uid us = true -> user_exists uid (us ++ us') = true.
Proof.
  unfold user_exists. rewrite existsb_app. intros ->. reflexivity.
Qed.

Lemma run_query_keeps_store_ok q s rows s' :
  store_ok s -> run_query q s = inr (rows, s') -> store_ok s'.
Proof.
  intros Hok Hq. destruct q; cbn [run_query] in Hq;
    try (inversion Hq; subst; exact Hok).
  - apply insert_user_accepted in Hq.
    destruct Hq as (name & mail & _ & _ & Hv & _ & ->).
    pose proof (unique_violation_false _ _ _ Hv) as Hfree.
    destruct Hok as [Hids Hissued Hnames Hmails Hpids Hpissued Hown].
    constructor; cbn.
    + apply NoDup_snoc; [exact Hids | ]. cbn. intros y Hy.
      specialize (Hissued y Hy). lia.
    + intros u Hu. apply in_app_iff in Hu. destruct Hu as [Hu | [<- | []]].
      * specialize (Hissued u Hu). lia.
      * cbn. lia.
    + apply NoDup_snoc; [exact Hnames | ]. cbn. intros y Hy.
      now destruct (Hfree y Hy).
    + apply NoDup_snoc; [exact Hmails | ]. cbn. intros y Hy.
      now destruct (Hfree y Hy).
    + exact Hpids.
    + exact Hpissued.
    + intros Hfk p Hp. apply user_exists_app. now apply Hown.
  - apply insert_post_store in Hq.
    destruct Hq as (uid & t & c & st & _ & _ & _ & _ & Hex & _ & ->).
    destruct Hok as [Hids Hissued Hnames Hmails Hpids Hpissued Hown].
    constructor; cbn; try assumption.
    + apply NoDup_snoc; [exact Hpids | ]. cbn. intros y Hy.
      specialize (Hpissued y Hy). lia.
    + intros p Hp. apply in_app_iff in Hp. destruct Hp as [Hp | [<- | []]].
      * specialize (Hpissued p Hp). lia.
      * cbn. lia.
    + intros Hfk p Hp. apply in_app_iff in Hp. destruct Hp as [Hp | [<- | []]].
      * now apply Hown.
      * cbn. now apply Hex.
Qed.

(** X9: every handler keeps the tables well formed, whatever the payload,
    the identifier and the condition of the store: identifiers stay
    distinct and behind their sequences, usernames and emails stay
    distinct, and where the foreign key is enforced every post keeps an
    owner. *)
Theorem handlers_keep_store_ok (data : value) (id : Z) (w : World) :
  store_ok (db w) ->
  store_ok (db (snd (health w)))
  /\ store_ok (db (snd (root w)))
  /\ store_ok (db (snd (list_users w)))
  /\ store_ok (db (snd (get_user id w)))
  /\ store_ok (db (snd (create_user data w)))
  /\ store_ok (db (snd (list_posts w)))
  /\ store_ok (db (snd (get_post id w)))
  /\ store_ok (db (snd (create_post data w)))
  /\ store_ok (db (snd (get_user_posts id w))).
Proof.
  intros Hok.
  assert (Hread : forall q respond, is_select q = true ->
                    store_ok (db (snd (reading q respond w)))).
  { intros q respond Hq.
    now rewrite (proj1 (reading_read_only q respond Hq w)). }
  repeat apply conj.
  - unfold health, try_except, bind.
    destruct (connect_fault (faults w)) as [e | ] eqn:Hc.
    + now rewrite (get_db_connection_fails w e Hc).
    + now rewrite (get_db_connection_ok w Hc).
  - exact Hok.
  - rewrite list_users_reading. now apply Hread.
  - rewrite get_user_reading. now apply Hread.
  - destruct (create_user_cases data w)
      as [H | [[e H] | [[e H] | [[e H] | (m & uv & ev & -> & Hu & He)]]]];
      try (rewrite H; exact Hok).
    rewrite (create_user_writes m uv ev w Hu He).
    destruct (writing_outcome (InsertUser uv ev) conflict_or_service_error w)
      as [(e & _ & ->) | (rows & s' & Hq & _ & ->)]; [exact Hok | ].
    cbn [snd]. rewrite committed_db.
    exact (run_query_keeps_store_ok _ _ _ _ Hok Hq).
  - rewrite list_posts_reading. now apply Hread.
  - rewrite get_post_reading. now apply Hread.
  - destruct (create_post_cases data w)
      as [H | [[e H] | [[e H] | [[e H] | (m & uv & tv & -> & Hu & Ht)]]]];
      try (rewrite H; exact Hok).
    rewrite (create_post_writes m uv tv w Hu Ht).
    destruct (writing_outcome (post_insert m uv tv) service_error w)
      as [(e & _ & ->) | (rows & s' & Hq & _ & ->)]; [exact Hok | ].
    cbn [snd]. rewrite committed_db.
    exact (run_query_keeps_store_ok _ _ _ _ Hok Hq).
  - rewrite get_user_posts_reading. now apply Hread.
Qed.

Lemma handlers_keep_store_ok_witness :
  store_ok (db consistent_world)
  /\ store_ok (db (snd (create_user (VDict alice_again) consistent_world)))
  /\ store_ok (db (snd (create_post (VDict bare_post) consistent_world))).
Proof.
  assert (Hok : store_ok (db consistent_world)).
  { constructor; cbn.
    - apply (bool_decide_unpack _). vm_compute. exact I.
    - intros u [<- | [<- | []]]; cbn; lia.
    - apply (bool_decide_unpack _). vm_compute. exact I.
    - apply (bool_decide_unpack _). vm_compute. exact I.
    - apply (bool_decide_unpack _). vm_compute. exact I.
    - intros p [<- | [<- | []]]; cbn; lia.
    - intros _ p [<- | [<- | []]]; reflexivity. }
  split; [exact Hok | ].
  split.
  - apply (handlers_keep_store_ok (VDict alice_again) 0 consistent_world Hok).
  - apply (handlers_keep_store_ok (VDict bare_post) 0 consistent_world Hok).
Defined.

(** ** Reading back what was created *)

Lemma create_user_runs m name mail w :
  m !! "username" = Some (VStr name) ->
  m !! "email" = Some (VStr mail) ->
  faults w = no_faults ->
  (forall u, In u (users (db w)) -> u_username u <> name /\ u_email u <> mail) ->
  let u := mkUser (next_user_id (db w)) name mail (now (db w)) in
  let s' := mkStore (users (db w) ++ [u]) (posts (db w))
                    (next_user_id (db w) + 1) (next_post_id (db w))
                    (now (db w)) (enforce_fk (db w)) (tie_first (db w)) in
  create_user (VDict m) w
  = (jsonify (VDict (user_row u)) 201,
     released (next_conn w) (committed w (InsertUser (VStr name) (VStr mail)) s')).
Proof.
  intros Hu He Hf Hfree u s'.
  rewrite (create_user_writes m _ _ w Hu He), writing_runs, Hf.
  cbn [no_faults connect_fault execute_fault commit_fault run_query insert_user as_text].
  now rewrite (not_unique_violation name mail _ Hfree).
Qed.

Lemma create_post_runs m uid title content st w :
  m !! "user_id" = Some (VInt uid) ->
  m !! "title" = Some (VStr title) ->
  field_or m "content" (VStr "") = VStr content ->
  field_or m "status" (VStr "draft") = VStr st ->
  faults w = no_faults ->
  (enforce_fk (db w) = true -> exists u, In u (users (db w)) /\ u_id u = uid) ->
  let p := mkPost (next_post_id (db w)) uid title content st (now (db w)) in
  let s' := mkStore (users (db w)) (posts (db w) ++ [p])
                    (next_user_id (db w)) (next_post_id (db w) + 1)
                    (now (db w)) (enforce_fk (db w)) (tie_first (db w)) in
  create_post (VDict m) w
  = (jsonify (VDict (returned_post_row p)) 201,
     released (next_conn w)
       (committed w (InsertPost (VInt uid) (VStr title) (VStr content) (VStr st)) s')).
Proof.
  intros Hu Ht Hc Hs Hf Hfk p s'.
  rewrite (create_post_writes m _ _ w Hu Ht), writing_runs, Hf.
  unfold post_insert. rewrite Hc, Hs.
  cbn [no_faults connect_fault execute_fault commit_fault run_query insert_post
       as_text as_integer].
  assert (Hok : enforce_fk (db w) && negb (user_exists uid (users (db w))) = false).
  { destruct (enforce_fk (db w)) eqn:E; [ | reflexivity]. cbn [andb].
    destruct (Hfk eq_refl) as [u [Hin Hid]].
    unfold user_exists. apply negb_false_iff. apply existsb_exists.
    exists u. split; [exact Hin | ]. apply Z.eqb_eq. now symmetry. }
  now rewrite Hok.
Qed.

Lemma filter_snoc_fresh {A} (f : A -> bool) (l : list A) (x : A) :
  (forall y, In y l -> f y = false) -> f x = true ->
  List.filter f (l ++ [x]) = [x].
Proof.
  intros Hold Hx. rewrite List.filter_app.
  rewrite (proj2 (filter_nil_iff f l) Hold). cbn. now rewrite Hx.
Qed.

(** X10: a user that create-user has just created is returned by get-user
    under the identifier of the 201 answer, with the very body of that
    answer, provided the sequence of identifiers is ahead of the users
    there are. *)
Theorem created_user_is_retrievable (m : gmap string value) (name mail : string)
    (w : World) :
  m !! "username" = Some (VStr name) ->
  m !! "email" = Some (VStr mail) ->
  faults w = no_faults ->
  (forall u, In u (users (db w)) -> u_username u <> name /\ u_email u <> mail) ->
  (forall u, In u (users (db w)) -> u_id u <> next_user_id (db w)) ->
  let created := create_user (VDict m) w in
  status (fst created) = 201
  /\ (exists r, body (fst created) = VDict r
                /\ r !! "id" = Some (VInt (next_user_id (db w))))
  /\ fst (get_user (next_user_id (db w)) (snd created))
     = jsonify (body (fst created)) 200.
Proof.
  intros Hu He Hf Hfree Hahead created. subst created.
  rewrite (create_user_runs m name mail w Hu He Hf Hfree). cbn [fst snd].
  split; [reflexivity | ]. split.
  - eexists. split; [reflexivity | ]. unfold user_row. now simplify_map_eq.
  - rewrite get_user_runs by (cbn; now rewrite Hf).
    rewrite committed_db. cbn [users].
    rewrite filter_snoc_fresh.
    + cbn [List.map body jsonify]. apply found_or_hit, user_row_id.
    + intros y Hy. cbn. apply Z.eqb_neq. now apply Hahead.
    + cbn. apply Z.eqb_refl.
Qed.

Lemma created_user_is_retrievable_witness :
  let m : gmap string value :=
    {[ "username" := VStr "carol"; "email" := VStr "carol@example.com" ]} in
  status (fst (create_user (VDict m) sample_world)) = 201
  /\ fst (get_user 3 (snd (create_user (VDict m) sample_world)))
     = jsonify (body (fst (create_user (VDict m) sample_world))) 200.
Proof.
  intros m.
  destruct (created_user_is_retrievable m "carol" "carol@example.com" sample_world)
    as (Hstatus & _ & Hget).
  - reflexivity.
  - reflexivity.
  - reflexivity.
  - intros u [<- | [<- | []]]; split; discriminate.
  - intros u [<- | [<- | []]]; discriminate.
  - split; [exact Hstatus | exact Hget].
Defined.

Lemma joined_row_agrees p uname k :
  k <> "username" -> joined_row (p, uname) !! k = returned_post_row p !! k.
Proof.
  intros Hk. unfold joined_row, returned_post_row.
  destruct (decide (k = "id")) as [-> | ?]; [now simplify_map_eq | ].
  destruct (decide (k = "title")) as [-> | ?]; [now simplify_map_eq | ].
  destruct (decide (k = "content")) as [-> | ?]; [now simplify_map_eq | ].
  destruct (decide (k = "status")) as [-> | ?]; [now simplify_map_eq | ].
  destruct (decide (k = "created_at")) as [-> | ?]; [now simplify_map_eq | ].
  destruct (decide (k = "user_id")) as [-> | ?]; [now simplify_map_eq | ].
  now simplify_map_eq.
Qed.

(** X11: a post that create-post has just created is returned by get-post
    under its identifier: the fields of the 201 answer unchanged, and in
    addition the username of its owner, [None] when no user has its
    [user_id]; provided the sequence of identifiers is ahead of the posts
    there are. *)
Theorem created_post_is_retrievable (m : gmap string value) (uid : Z)
    (title content st : string) (w : World) :
  m !! "user_id" = Some (VInt uid) ->
  m !! "title" = Some (VStr title) ->
  field_or m "content" (VStr "") = VStr content ->
  field_or m "status" (VStr "draft") = VStr st ->
  faults w = no_faults ->
  (enforce_fk (db w) = true -> exists u, In u (users (db w)) /\ u_id u = uid) ->
  (forall p, In p (posts (db w)) -> p_id p <> next_post_id (db w)) ->
  let created := create_post (VDict m) w in
  let p := mkPost (next_post_id (db w)) uid title content st (now (db w)) in
  fst created = jsonify (VDict (returned_post_row p)) 201
  /\ exists uname,
       fst (get_post (next_post_id (db w)) (snd created))
       = jsonify (VDict (joined_row (p, uname))) 200
       /\ owner_name p (users (db w)) uname
       /\ (forall k, k <> "username" ->
             joined_row (p, uname) !! k = returned_post_row p !! k).
Proof.
  intros Hu Ht Hc Hs Hf Hfk Hahead created p. subst created.
  rewrite (create_post_runs m uid title content st w Hu Ht Hc Hs Hf Hfk).
  cbn [fst snd]. split; [reflexivity | ].
  rewrite get_post_runs by (cbn; now rewrite Hf).
  rewrite committed_db. cbn [users posts].
  rewrite filter_snoc_fresh.
  - fold p.
    destruct (left_join [p] (users (db w))) as [ | [p0 un] rest] eqn:Hj.
    + apply left_join_nil in Hj. discriminate.
    + assert (Hin : In (p0, un) (left_join [p] (users (db w))))
        by (rewrite Hj; now left).
      apply left_join_sound in Hin. destruct Hin as [[<- | []] Hown].
      exists un. split; [ | split; [exact Hown | ]].
      * cbn [List.map]. apply found_or_hit, joined_row_id.
      * intros k Hk. now apply joined_row_agrees.
  - intros y Hy. cbn. apply Z.eqb_neq. now apply Hahead.
  - cbn. apply Z.eqb_refl.
Qed.

Lemma created_post_is_retrievable_witness :
  fst (create_post (VDict bare_post) sample_world)
  = jsonify (VDict (returned_post_row (mkPost 4 1 "hello" "" "draft" 400))) 201
  /\ exists uname,
       fst (get_post 4 (snd (create_post (VDict bare_post) sample_world)))
       = jsonify (VDict (joined_row (mkPost 4 1 "hello" "" "draft" 400, uname))) 200
       /\ owner_name (mkPost 4 1 "hello" "" "draft" 400)
            (users (db sample_world)) uname.
Proof.
  destruct (created_post_is_retrievable bare_post 1 "hello" "" "draft" sample_world)
    as (Hresp & uname & Hget & Hown & _).
  - reflexivity.
  - reflexivity.
  - reflexivity.
  - reflexivity.
  - reflexivity.
  - intros _. exists alice. split; [left; reflexivity | reflexivity].
  - intros p [<- | [<- | [<- | []]]]; discriminate.
  - split; [exact Hresp | ]. exists uname. split; [exact Hget | exact Hown].
Defined.

(** X12: creating the same user a second time, right after it was
    created, is answered 409 with the fixed message, and the tables stay
    as the first request left them. *)
Theorem repeated_create_user_conflicts (m : gmap string value)
    (name mail : string) (w : World) :
  m !! "username" = Some (VStr name) ->
  m !! "email" = Some (VStr mail) ->
  faults w = no_faults ->
  (forall u, In u (users (db w)) -> u_username u <> name /\ u_email u <> mail) ->
  let w1 := snd (create_user (VDict m) w) in
  status (fst (create_user (VDict m) w)) = 201
  /\ fst (create_user (VDict m) w1)
     = jsonify (error_body "Username or email already exists") 409
  /\ db (snd (create_user (VDict m) w1)) = db w1.
Proof.
  intros Hu He Hf Hfree w1. subst w1.
  rewrite (create_user_runs m name mail w Hu He Hf Hfree). cbn [fst snd].
  split; [reflexivity | ].
  rewrite (create_user_writes m _ _ _ Hu He), writing_runs.
  change (faults (released _ _)) with (faults w). rewrite Hf.
  cbn [no_faults connect_fault execute_fault commit_fault].
  rewrite committed_db. cbn [run_query insert_user as_text users].
  assert (Hdup : unique_violation name mail
                   (users (db w) ++ [mkUser (next_user_id (db w)) name mail (now (db w))])
                 = true).
  { apply unique_violation_iff. eexists. split; [apply in_app_iff; right; now left | ].
    left. reflexivity. }
  rewrite Hdup. split; reflexivity.
Qed.

Lemma repeated_create_user_conflicts_witness :
  let m : gmap string value :=
    {[ "username" := VStr "carol"; "email" := VStr "carol@example.com" ]} in
  status (fst (create_user (VDict m) sample_world)) = 201
  /\ fst (create_user (VDict m) (snd (create_user (VDict m) sample_world)))
     = jsonify (error_body "Username or email already exists") 409.
Proof.
  intros m.
  destruct (repeated_create_user_conflicts m "carol" "carol@example.com" sample_world)
    as (Hfirst & Hsecond & _).
  - reflexivity.
  - reflexivity.
  - reflexivity.
  - intros u [<- | [<- | []]]; split; discriminate.
  - split; [exact Hfirst | exact Hsecond].
Defined.

(** ** Requests are independent of the connections *)

Lemma reading_same q respond w1 w2 :
  is_select q = true ->
  (forall c1 c2 rows, respond (mkCursor c1 rows) = respond (mkCursor c2 rows)) ->
  same_store w1 w2 ->
  fst (reading q respond w1) = fst (reading q respond w2).
Proof.
  intros Hq Hresp [Hdb Hf]. rewrite !reading_runs by exact Hq.
  rewrite Hdb, Hf.
  destruct (connect_fault (faults w2)); [reflexivity | ].
  destruct (execute_fault (faults w2)); [reflexivity | ].
  cbn [fst]. apply Hresp.
Qed.

Lemma writing_same q handler w1 w2 :
  same_store w1 w2 ->
  fst (writing q handler w1) = fst (writing q handler w2)
  /\ db (snd (writing q handler w1)) = db (snd (writing q handler w2)).
Proof.
  intros [Hdb Hf]. rewrite !writing_runs. rewrite Hdb, Hf.
  destruct (connect_fault (faults w2)); [now split | ].
  destruct (execute_fault (faults w2)); [now split | ].
  destruct (run_query q (db w2)) as [e | [rows s']]; [now split | ].
  destruct (commit_fault (faults w2)); now split.
Qed.

Lemma create_user_missing_key m w :
  m !! "username" = None \/ m !! "email" = None ->
  create_user (VDict m) w
  = (jsonify (error_body "username and email are required") 400, w).
Proof.
  intros Habsent. apply create_user_rejected.
  rewrite missing_required_dict. f_equal. f_equal.
  apply orb_true_iff. rewrite !lacks_true. exact Habsent.
Qed.

Lemma create_post_missing_key m w :
  m !! "user_id" = None \/ m !! "title" = None ->
  create_post (VDict m) w
  = (jsonify (error_body "user_id and title are required") 400, w).
Proof.
  intros Habsent. apply create_post_rejected.
  rewrite missing_required_dict. f_equal. f_equal.
  apply orb_true_iff. rewrite !lacks_true. exact Habsent.
Qed.

(** X13: the answer of every handler depends on the payload, the
    identifier, the committed tables and the condition of the store only:
    two worlds that agree on these get the same answer, whatever
    connections earlier requests have left open, whatever those
    connections have pending and whatever the log holds; and the creating
    handlers leave the same tables in both. *)
Theorem answers_ignore_open_connections (m : gmap string value) (id : Z)
    (w1 w2 : World) :
  same_store w1 w2 ->
  fst (health w1) = fst (health w2)
  /\ fst (list_users w1) = fst (list_users w2)
  /\ fst (get_user id w1) = fst (get_user id w2)
  /\ fst (list_posts w1) = fst (list_posts w2)
  /\ fst (get_post id w1) = fst (get_post id w2)
  /\ fst (get_user_posts id w1) = fst (get_user_posts id w2)
  /\ (fst (create_user (VDict m) w1) = fst (create_user (VDict m) w2)
      /\ db (snd (create_user (VDict m) w1)) = db (snd (create_user (VDict m) w2)))
  /\ (fst (create_post (VDict m) w1) = fst (create_post (VDict m) w2)
      /\ db (snd (create_post (VDict m) w1)) = db (snd (create_post (VDict m) w2))).
Proof.
  intros Hsame. pose proof Hsame as [Hdb Hf].
  repeat apply conj.
  - unfold health, try_except, bind, get_db_connection. rewrite Hf.
    destruct (connect_fault (faults w2)); reflexivity.
  - rewrite !list_users_reading. now apply reading_same.
  - rewrite !get_user_reading. now apply reading_same.
  - rewrite !list_posts_reading. now apply reading_same.
  - rewrite !get_post_reading. now apply reading_same.
  - rewrite !get_user_posts_reading. now apply reading_same.
  - destruct (m !! "username") as [uv | ] eqn:Hu;
      [destruct (m !! "email") as [ev | ] eqn:He | ].
    + rewrite !(create_user_writes m uv ev _ Hu He).
      now apply writing_same.
    + rewrite !(create_user_missing_key m _) by now right.
      reflexivity.
    + rewrite !(create_user_missing_key m _) by now left.
      reflexivity.
  - destruct (m !! "username") as [uv | ] eqn:Hu;
      [destruct (m !! "email") as [ev | ] eqn:He | ].
    + rewrite !(create_user_writes m uv ev _ Hu He).
      now apply writing_same.
    + rewrite !(create_user_missing_key m _) by now right.
      exact Hdb.
    + rewrite !(create_user_missing_key m _) by now left.
      exact Hdb.
  - destruct (m !! "user_id") as [uv | ] eqn:Hu;
      [destruct (m !! "title") as [tv | ] eqn:Ht | ].
    + rewrite !(create_post_writes m uv tv _ Hu Ht).
      now apply writing_same.
    + rewrite !(create_post_missing_key m _) by now right.
      reflexivity.
    + rewrite !(create_post_missing_key m _) by now left.
      reflexivity.
  - destruct (m !! "user_id") as [uv | ] eqn:Hu;
      [destruct (m !! "title") as [tv | ] eqn:Ht | ].
    + rewrite !(create_post_writes m uv tv _ Hu Ht).
      now apply writing_same.
    + rewrite !(create_post_missing_key m _) by now right.
      exact Hdb.
    + rewrite !(create_post_missing_key m _) by now left.
      exact Hdb.
Qed.

Lemma answers_ignore_open_connections_witness :
  let busy := snd (create_user (VDict alice_again) sample_world) in
  same_store sample_world busy
  /\ conns busy !! 0%nat = Some None
  /\ fst (list_posts sample_world) = fst (list_posts busy)
  /\ fst (create_post (VDict bare_post) sample_world)
     = fst (create_post (VDict bare_post) busy).
Proof.
  intros busy.
  assert (Hsame : same_store sample_world busy) by (split; reflexivity).
  split; [exact Hsame | ]. split; [reflexivity | ].
  destruct (answers_ignore_open_connections bare_post 0 sample_world busy Hsame)
    as (_ & _ & _ & Hposts & _ & _ & _ & Hcreate & _).
  split; [exact Hposts | exact Hcreate].
Defined.

(** ** Connections on the paths that close them *)

Lemma reading_conns q respond w :
  is_select q = true ->
  conns w !! next_conn w = None ->
  execute_fault (faults w) = None ->
  conns (snd (reading q respond w)) = conns w.
Proof.
  intros Hq Hfresh He. rewrite (reading_runs q respond w Hq), He.
  destruct (connect_fault (faults w)); [reflexivity | ].
  cbn. rewrite !delete_insert_eq. now apply delete_id.
Qed.

Lemma writing_conns q handler w :
  conns w !! next_conn w = None ->
  status (fst (writing q handler w)) = 201 ->
  (forall e, status (handler e) <> 201) ->
  conns (snd (writing q handler w)) = conns w.
Proof.
  intros Hfresh Hst Hh.
  destruct (writing_outcome q handler w)
    as [(e & He & _) | (rows & s' & _ & _ & Hrun)].
  - rewrite He in Hst. now apply Hh in Hst.
  - rewrite Hrun. cbn [snd]. rewrite conns_created. now apply delete_id.
Qed.

Lemma conflict_or_service_error_not_created e :
  status (conflict_or_service_error e) <> 201.
Proof. destruct (conflict_or_service_error_status e) as [-> | ->]; lia. Qed.

Lemma conflict_or_service_error_not_rejected e :
  status (conflict_or_service_error e) <> 400.
Proof. destruct (conflict_or_service_error_status e) as [-> | ->]; lia. Qed.

(** X14: when the connection identifier about to be issued is not in
    use, a request that runs to its end leaves the open connections
    exactly as they were: the health check always, the five reading
    handlers whenever the statement itself does not fail (a 404
    included), and the creating handlers whenever they answer 201 or
    400. *)
Theorem answered_requests_leave_no_connection (data : value) (id : Z)
    (w : World) :
  conns w !! next_conn w = None ->
  conns (snd (health w)) = conns w
  /\ (execute_fault (faults w) = None ->
      conns (snd (list_users w)) = conns w
      /\ conns (snd (get_user id w)) = conns w
      /\ conns (snd (list_posts w)) = conns w
      /\ conns (snd (get_post id w)) = conns w
      /\ conns (snd (get_user_posts id w)) = conns w)
  /\ (status (fst (create_user data w)) = 201
      \/ status (fst (create_user data w)) = 400 ->
      conns (snd (create_user data w)) = conns w)
  /\ (status (fst (create_post data w)) = 201
      \/ status (fst (create_post data w)) = 400 ->
      conns (snd (create_post data w)) = conns w).
Proof.
  intros Hfresh. split; [ | split; [ | split]].
  - unfold health, try_except, bind.
    destruct (connect_fault (faults w)) as [e | ] eqn:Hc.
    + now rewrite (get_db_connection_fails w e Hc).
    + rewrite (get_db_connection_ok w Hc). cbn.
      rewrite delete_insert_eq. now apply delete_id.
  - intros He. repeat apply conj.
    + rewrite list_users_reading. now apply reading_conns.
    + rewrite get_user_reading. now apply reading_conns.
    + rewrite list_posts_reading. now apply reading_conns.
    + rewrite get_post_reading. now apply reading_conns.
    + rewrite get_user_posts_reading. now apply reading_conns.
  - destruct (create_user_cases data w)
      as [H | [[e H] | [[e H] | [[e H] | (m & uv & ev & -> & Hu & He)]]]];
      try (rewrite H; reflexivity).
    + rewrite H. cbn. intros [? | ?]; lia.
    + rewrite (create_user_writes m uv ev w Hu He). intros [Hst | Hst].
      * apply writing_conns; [exact Hfresh | exact Hst | ].
        apply conflict_or_service_error_not_created.
      * destruct (writing_outcome (InsertUser uv ev) conflict_or_service_error w)
          as [(e & He' & _) | (rows & s' & _ & _ & Hrun)].
        -- rewrite He' in Hst.
           now apply conflict_or_service_error_not_rejected in Hst.
        -- rewrite Hrun in Hst. cbn in Hst. lia.
  - destruct (create_post_cases data w)
      as [H | [[e H] | [[e H] | [[e H] | (m & uv & tv & -> & Hu & Ht)]]]];
      try (rewrite H; reflexivity).
    + rewrite H. cbn. intros [? | ?]; lia.
    + rewrite (create_post_writes m uv tv w Hu Ht). intros [Hst | Hst].
      * apply writing_conns; [exact Hfresh | exact Hst | ].
        intros e. cbn. lia.
      * destruct (writing_outcome (post_insert m uv tv) service_error w)
          as [(e & He' & _) | (rows & s' & _ & _ & Hrun)].
        -- rewrite He' in Hst. cbn in Hst. lia.
        -- rewrite Hrun in Hst. cbn in Hst. lia.
Qed.

Lemma answered_requests_leave_no_connection_witness :
  conns sample_world !! next_conn sample_world = None
  /\ execute_fault (faults sample_world) = None
  /\ conns (snd (get_post 9 sample_world)) = conns sample_world
  /\ status (fst (create_post (VDict bare_post) sample_world)) = 201
  /\ conns (snd (create_post (VDict bare_post) sample_world)) = conns sample_world.
Proof.
  assert (Hfresh : conns sample_world !! next_conn sample_world = None)
    by reflexivity.
  assert (Hst : status (fst (create_post (VDict bare_post) sample_world)) = 201)
    by (vm_compute; reflexivity).
  destruct (answered_requests_leave_no_connection (VDict bare_post) 9
              sample_world Hfresh) as (_ & Hread & _ & Hpost).
  destruct (Hread eq_refl) as (_ & _ & _ & Hget & _).
  split; [exact Hfresh | split; [reflexivity | split; [exact Hget | ]]].
  split; [exact Hst | ]. apply Hpost. now left.
Defined.

(** ** Connections on the paths that do not close them *)

Lemma failed_statement_world w q :
  conns (emit (EvExecute (next_conn w) q) (connected w)) !! next_conn w = Some None
  /\ exists calls,
       log (emit (EvExecute (next_conn w) q) (connected w)) = (log w ++ calls)%list
       /\ forallb (fun ev => negb (is_close ev)) calls = true.
Proof.
  split; [apply connected_lookup | ].
  exists [EvConnect (next_conn w); EvExecute (next_conn w) q].
  split; [cbn; now rewrite <- app_assoc | reflexivity].
Qed.

Lemma reading_leaves_open q respond w e :
  is_select q = true ->
  connect_fault (faults w) = None ->
  execute_fault (faults w) = Some e ->
  fst (reading q respond w) = service_error e
  /\ leaves_open (reading q respond) w.
Proof.
  intros Hq Hc He. unfold leaves_open.
  rewrite (reading_runs q respond w Hq), Hc, He.
  split; [reflexivity | apply failed_statement_world].
Qed.

Lemma writing_leaves_open q handler w e :
  connect_fault (faults w) = None ->
  rejects w q e ->
  fst (writing q handler w) = handler e
  /\ leaves_open (writing q handler) w.
Proof.
  intros Hc Hrej. unfold leaves_open. rewrite writing_runs, Hc.
  destruct Hrej as [Hx | [Hx Hq]]; rewrite Hx.
  - split; [reflexivity | apply failed_statement_world].
  - rewrite Hq. split; [reflexivity | apply failed_statement_world].
Qed.

Lemma leaves_open_ext (h h' : World -> Response * World) w :
  h w = h' w -> leaves_open h' w -> leaves_open h w.
Proof. unfold leaves_open. now intros ->. Qed.

(** X15: when the connection opens and the statement then fails with
    [e], every handler that runs a statement returns with its connection
    still open and without having closed any: the five reading handlers
    answer 500 with [str(e)], create-post too, and create-user answers
    through its [except] clauses. No handler closes its connection on
    the path through an [except] clause. *)
Theorem failed_statement_keeps_connection (m : gmap string value) (id : Z)
    (w : World) (e : exn) :
  connect_fault (faults w) = None ->
  (execute_fault (faults w) = Some e ->
     (fst (list_users w) = service_error e /\ leaves_open list_users w)
     /\ (fst (get_user id w) = service_error e /\ leaves_open (get_user id) w)
     /\ (fst (list_posts w) = service_error e /\ leaves_open list_posts w)
     /\ (fst (get_post id w) = service_error e /\ leaves_open (get_post id) w)
     /\ (fst (get_user_posts id w) = service_error e
         /\ leaves_open (get_user_posts id) w))
  /\ (forall uv ev,
        m !! "username" = Some uv -> m !! "email" = Some ev ->
        rejects w (InsertUser uv ev) e ->
        fst (create_user (VDict m) w) = conflict_or_service_error e
        /\ leaves_open (create_user (VDict m)) w)
  /\ (forall uv tv,
        m !! "user_id" = Some uv -> m !! "title" = Some tv ->
        rejects w (post_insert m uv tv) e ->
        fst (create_post (VDict m) w) = service_error e
        /\ leaves_open (create_post (VDict m)) w).
Proof.
  intros Hc.
  assert (Hread : forall (h : World -> Response * World) q respond,
            h w = reading q respond w -> is_select q = true ->
            execute_fault (faults w) = Some e ->
            fst (h w) = service_error e /\ leaves_open h w).
  { intros h q respond Heq Hq He.
    destruct (reading_leaves_open q respond w e Hq Hc He) as [Hresp Hopen].
    split; [now rewrite Heq | ].
    now apply (leaves_open_ext h (reading q respond) w Heq). }
  assert (Hwrite : forall (h : World -> Response * World) q handler,
            h w = writing q handler w -> rejects w q e ->
            fst (h w) = handler e /\ leaves_open h w).
  { intros h q handler Heq Hrej.
    destruct (writing_leaves_open q handler w e Hc Hrej) as [Hresp Hopen].
    split; [now rewrite Heq | ].
    now apply (leaves_open_ext h (writing q handler) w Heq). }
  split; [ | split].
  - intros He. split; [ | split; [ | split; [ | split]]].
    + now apply (Hread _ _ _ (list_users_reading w)).
    + now apply (Hread _ _ _ (get_user_reading id w)).
    + now apply (Hread _ _ _ (list_posts_reading w)).
    + now apply (Hread _ _ _ (get_post_reading id w)).
    + now apply (Hread _ _ _ (get_user_posts_reading id w)).
  - intros uv ev Hu He Hrej.
    now apply (Hwrite _ _ _ (create_user_writes m uv ev w Hu He)).
  - intros uv tv Hu Ht Hrej.
    now apply (Hwrite _ _ _ (create_post_writes m uv tv w Hu Ht)).
Qed.

Lemma failed_statement_keeps_connection_witness :
  connect_fault (faults dropping_world) = None
  /\ execute_fault (faults dropping_world)
     = Some (DatabaseError "server closed the connection unexpectedly")
  /\ leaves_open list_posts dropping_world
  /\ rejects sample_world (post_insert orphan_post (VInt 9) (VStr "nobody"))
       (IntegrityError "insert on table posts violates foreign key constraint")
  /\ leaves_open (create_post (VDict orphan_post)) sample_world.
Proof.
  assert (Hrej : rejects sample_world
                   (post_insert orphan_post (VInt 9) (VStr "nobody"))
                   (IntegrityError "insert on table posts violates foreign key constraint"))
    by (right; split; reflexivity).
  split; [reflexivity | split; [reflexivity | ]].
  destruct (failed_statement_keeps_connection orphan_post 0 dropping_world
              (DatabaseError "server closed the connection unexpectedly") eq_refl)
    as (Hread & _ & _).
  destruct (Hread eq_refl) as (_ & _ & (_ & Hposts) & _).
  destruct (failed_statement_keeps_connection orphan_post 0 sample_world
              (IntegrityError "insert on table posts violates foreign key constraint")
              eq_refl)
    as (_ & _ & Hcreate).
  split; [exact Hposts | split; [exact Hrej | ]].
  apply (Hcreate (VInt 9) (VStr "nobody")); [reflexivity | reflexivity | exact Hrej].
Defined.

(** X16: when the insert succeeds and the commit then fails with [e],
    the committed tables stay as they were: the new row exists only in
    the transaction of the connection, which the handler leaves open.
    Create-user answers through its [except] clauses and create-post
    answers 500 with [str(e)]. *)
Theorem failed_commit_changes_nothing (m : gmap string value) (w : World)
    (e : exn) :
  connect_fault (faults w) = None ->
  execute_fault (faults w) = None ->
  commit_fault (faults w) = Some e ->
  (forall uv ev rows s',
     m !! "username" = Some uv -> m !! "email" = Some ev ->
     run_query (InsertUser uv ev) (db w) = inr (rows, s') ->
     fst (create_user (VDict m) w) = conflict_or_service_error e
     /\ db (snd (create_user (VDict m) w)) = db w
     /\ conns (snd (create_user (VDict m) w)) !! next_conn w = Some (Some s'))
  /\ (forall uv tv rows s',
     m !! "user_id" = Some uv -> m !! "title" = Some tv ->
     run_query (post_insert m uv tv) (db w) = inr (rows, s') ->
     fst (create_post (VDict m) w) = service_error e
     /\ db (snd (create_post (VDict m) w)) = db w
     /\ conns (snd (create_post (VDict m) w)) !! next_conn w = Some (Some s')).
Proof.
  intros Hc Hx Hm. split.
  - intros uv ev rows s' Hu He Hq.
    rewrite (create_user_writes m uv ev w Hu He), writing_runs, Hc, Hx, Hq, Hm.
    split; [reflexivity | split; [reflexivity | ]].
    cbn. apply lookup_insert_eq.
  - intros uv tv rows s' Hu Ht Hq.
    rewrite (create_post_writes m uv tv w Hu Ht), writing_runs, Hc, Hx, Hq, Hm.
    split; [reflexivity | split; [reflexivity | ]].
    cbn. apply lookup_insert_eq.
Qed.

Lemma failed_commit_changes_nothing_witness :
  commit_fault (faults commit_failing_world)
  = Some (DatabaseError "could not commit")
  /\ fst (create_post (VDict bare_post) commit_failing_world)
     = jsonify (error_body "could not commit") 500
  /\ db (snd (create_post (VDict bare_post) commit_failing_world))
     = db commit_failing_world
  /\ is_Some (conns (snd (create_post (VDict bare_post) commit_failing_world))
              !! 0%nat).
Proof.
  split; [reflexivity | ].
  destruct (failed_commit_changes_nothing bare_post commit_failing_world
              (DatabaseError "could not commit") eq_refl eq_refl eq_refl)
    as [_ Hpost].
  destruct (Hpost (VInt 1) (VStr "hello") _ _ eq_refl eq_refl eq_refl)
    as (Hresp & Hdb & Hconn).
  split; [exact Hresp | split; [exact Hdb | ]].
  eexists. exact Hconn.
Defined.

(** ** Payloads that are not mappings *)

(** X19: a payload that is not a dict (a number, a string, a list, ...)
    never makes a creating handler run a statement: the answer is not
    201, the tables stay as they were, and no statement is among the
    driver calls, even when the payload passes the test for the required
    names (a list or a string that contains both). *)
Theorem non_mapping_payload_runs_no_statement (data : value) (w : World) :
  (forall m, data <> VDict m) ->
  (status (fst (create_user data w)) <> 201
   /\ db (snd (create_user data w)) = db w
   /\ exists calls,
        log (snd (create_user data w)) = (log w ++ calls)%list
        /\ forallb (fun ev => negb (is_execute ev)) calls = true)
  /\ (status (fst (create_post data w)) <> 201
      /\ db (snd (create_post data w)) = db w
      /\ exists calls,
           log (snd (create_post data w)) = (log w ++ calls)%list
           /\ forallb (fun ev => negb (is_execute ev)) calls = true).
Proof.
  intros Hnot. split.
  - destruct (create_user_cases data w)
      as [H | [[e H] | [[e H] | [[e H] | (m & uv & ev & Hd & _)]]]];
      [ | | | | now apply Hnot in Hd]; rewrite H; cbn [fst snd].
    + split; [cbn; lia | split; [reflexivity | ]].
      exists []. split; [now rewrite app_nil_r | reflexivity].
    + split; [cbn; lia | split; [reflexivity | ]].
      exists []. split; [now rewrite app_nil_r | reflexivity].
    + split; [apply conflict_or_service_error_not_created | split; [reflexivity | ]].
      exists [EvConnectFailed]. split; reflexivity.
    + split; [cbn; lia | split; [reflexivity | ]].
      exists [EvConnect (next_conn w)]. split; reflexivity.
  - destruct (create_post_cases data w)
      as [H | [[e H] | [[e H] | [[e H] | (m & uv & tv & Hd & _)]]]];
      [ | | | | now apply Hnot in Hd]; rewrite H; cbn [fst snd].
    + split; [cbn; lia | split; [reflexivity | ]].
      exists []. split; [now rewrite app_nil_r | reflexivity].
    + split; [cbn; lia | split; [reflexivity | ]].
      exists []. split; [now rewrite app_nil_r | reflexivity].
    + split; [cbn; lia | split; [reflexivity | ]].
      exists [EvConnectFailed]. split; reflexivity.
    + split; [cbn; lia | split; [reflexivity | ]].
      exists [EvConnect (next_conn w)]. split; reflexivity.
Qed.

Lemma non_mapping_payload_runs_no_statement_witness :
  (forall m, names_only <> VDict m)
  /\ status (fst (create_user names_only sample_world)) = 500
  /\ log (snd (create_user names_only sample_world)) = [EvConnect 0]
  /\ db (snd (create_user names_only sample_world)) = db sample_world.
Proof.
  assert (Hnot : forall m, names_only <> VDict m) by (intros m; discriminate).
  split; [exact Hnot | ].
  destruct (non_mapping_payload_runs_no_statement names_only sample_world Hnot)
    as ((_ & Hdb & _) & _).
  split; [vm_compute; reflexivity | ].
  split; [vm_compute; reflexivity | exact Hdb].
Defined.

(** ** Listings after a creation *)

(** X20: after create-user has created a user, list-users lists the users
    there were together with the new one, each once. *)
Theorem created_user_is_listed (m : gmap string value) (name mail : string)
    (w : World) :
  m !! "username" = Some (VStr name) ->
  m !! "email" = Some (VStr mail) ->
  faults w = no_faults ->
  (forall u, In u (users (db w)) -> u_username u <> name /\ u_email u <> mail) ->
  let u := mkUser (next_user_id (db w)) name mail (now (db w)) in
  exists rows,
    fst (list_users (snd (create_user (VDict m) w))) = jsonify (users_body rows) 200
    /\ Permutation rows (users (db w) ++ [u])
    /\ In u rows.
Proof.
  intros Hu He Hf Hfree u.
  rewrite (create_user_runs m name mail w Hu He Hf Hfree). cbn [snd].
  rewrite list_users_runs by (cbn; now rewrite Hf).
  rewrite committed_db. cbn [fst users].
  eexists. split; [reflexivity | ].
  split; [apply order_by_perm | ].
  apply (Permutation_in _ (Permutation_sym (order_by_perm (by_id_asc _) _))).
  apply in_app_iff. right. now left.
Qed.

Lemma created_user_is_listed_witness :
  let m : gmap string value :=
    {[ "username" := VStr "carol"; "email" := VStr "carol@example.com" ]} in
  exists rows,
    fst (list_users (snd (create_user (VDict m) sample_world)))
    = jsonify (users_body rows) 200
    /\ In (mkUser 3 "carol" "carol@example.com" 400) rows.
Proof.
  intros m.
  destruct (created_user_is_listed m "carol" "carol@example.com" sample_world)
    as (rows & Hresp & _ & Hin).
  - reflexivity.
  - reflexivity.
  - reflexivity.
  - intros u [<- | [<- | []]]; split; discriminate.
  - exists rows. split; [exact Hresp | exact Hin].
Defined.

(** X21: after create-post has created a post, the listing of its
    owner's posts holds it, and the listing of any other user's posts is
    what it was before. *)
Theorem created_post_is_listed_for_its_owner (m : gmap string value) (uid : Z)
    (title content st : string) (w : World) :
  m !! "user_id" = Some (VInt uid) ->
  m !! "title" = Some (VStr title) ->
  field_or m "content" (VStr "") = VStr content ->
  field_or m "status" (VStr "draft") = VStr st ->
  faults w = no_faults ->
  (enforce_fk (db w) = true -> exists u, In u (users (db w)) /\ u_id u = uid) ->
  let p := mkPost (next_post_id (db w)) uid title content st (now (db w)) in
  let w' := snd (create_post (VDict m) w) in
  (exists rows uname,
     fst (get_user_posts uid w') = jsonify (posts_body rows) 200
     /\ In (p, uname) rows)
  /\ (forall other, other <> uid ->
        fst (get_user_posts other w') = fst (get_user_posts other w)).
Proof.
  intros Hu Ht Hc Hs Hf Hfk p w'. subst w'.
  rewrite (create_post_runs m uid title content st w Hu Ht Hc Hs Hf Hfk).
  cbn [snd]. fold p. split.
  - rewrite get_user_posts_runs by (cbn; now rewrite Hf).
    rewrite committed_db. cbn [fst users posts].
    destruct (left_join_complete
                (List.filter (fun p0 => Z.eqb (p_user_id p0) uid) (posts (db w) ++ [p]))
                (users (db w)) p) as [uname Hin].
    { apply filter_In. split; [apply in_app_iff; right; now left | ].
      cbn. apply Z.eqb_refl. }
    eexists _, uname. split; [reflexivity | ].
    apply (Permutation_in _ (Permutation_sym (order_by_perm (by_created_desc _) _))).
    exact Hin.
  - intros other Hother.
    rewrite !get_user_posts_runs by (cbn; now rewrite Hf).
    rewrite committed_db. cbn [fst users posts].
    rewrite List.filter_app. cbn [List.filter p_user_id p].
    replace (Z.eqb uid other) with false by (symmetry; apply Z.eqb_neq; congruence).
    now rewrite app_nil_r.
Qed.

Lemma created_post_is_listed_for_its_owner_witness :
  let w' := snd (create_post (VDict bare_post) sample_world) in
  (exists rows uname,
     fst (get_user_posts 1 w') = jsonify (posts_body rows) 200
     /\ In (mkPost 4 1 "hello" "" "draft" 400, uname) rows)
  /\ fst (get_user_posts 2 w') = fst (get_user_posts 2 sample_world).
Proof.
  intros w'.
  destruct (created_post_is_listed_for_its_owner bare_post 1 "hello" "" "draft"
              sample_world) as (Hmine & Hothers).
  - reflexivity.
  - reflexivity.
  - reflexivity.
  - reflexivity.
  - reflexivity.
  - intros _. exists alice. split; [left; reflexivity | reflexivity].
  - split; [exact Hmine | ]. apply Hothers. discriminate.
Defined.
